(** * Ingest pipeline of the data-visualisation backend (backend/backend.py)

    A shallow embedding of the Flask backend: the values that the decoders
    hand to [insert_data], the SQLite table [data] with its AUTOINCREMENT
    key, the connection on which [insert_data] works (changes are pending
    until [commit]), and the request handlers built on top of them. *)

From Stdlib Require Import ZArith List String Ascii Bool Lia Floats DecimalString.
Import ListNotations.

Set Warnings "-register-all".

Open Scope Z_scope.
Open Scope list_scope.

(** ** Python values *)

(** What [json.load] and [DataFrame.to_dict('records')] produce: [None],
    booleans, integers (unbounded), floats, strings, lists and dicts.  The
    entries of a dict are kept in insertion order, with distinct keys.
    A str is held as the bytes of its UTF-8 encoding; a lone surrogate,
    which [json.load] gives for an unpaired escape from D800 to DFFF and
    for which UTF-8 has no encoding, is held as the three bytes that the
    surrogatepass handler writes for it. *)
Inductive pyval : Type :=
| PNone
| PBool (b : bool)
| PInt (n : Z)
| PFloat (x : float)
| PStr (s : string)
| PList (items : list pyval)
| PDict (entries : list (string * pyval)).

(** The exceptions that can be raised while one record is inserted. *)
Inductive exception : Type :=
| AttributeError     (* item.get on something that is not a dict *)
| ProgrammingError   (* a parameter of a type sqlite3 cannot bind *)
| OverflowError      (* an int that does not fit SQLite's 64-bit INTEGER *)
| UnicodeEncodeError (* a str with a lone surrogate: it has no UTF-8 *)
| OperationalError.  (* the store refuses the row: no rowid left *)

(** A small error monad for code that may raise. *)
Definition raises (A : Type) : Type := (exception + A)%type.

Definition ret {A} (a : A) : raises A := inr a.
Definition raise {A} (e : exception) : raises A := inl e.
Definition bind {A B} (m : raises A) (k : A -> raises B) : raises B :=
  match m with
  | inl e => inl e
  | inr a => k a
  end.

Declare Scope raises_scope.
Delimit Scope raises_scope with raises.
Notation "x <- m ;; k" := (bind m (fun x => k))
  (at level 61, m at next level, right associativity) : raises_scope.

(** Truth value of a Python object, as tested by [if v]. *)
Definition truthy (v : pyval) : bool :=
  match v with
  | PNone => false
  | PBool b => b
  | PInt n => negb (n =? 0)
  | PFloat x => negb (PrimFloat.is_zero x)
  | PStr s => negb (String.eqb s EmptyString)
  | PList items => match items with [] => false | _ :: _ => true end
  | PDict entries => match entries with [] => false | _ :: _ => true end
  end.

(** [str(n)] for an int: its decimal numeral. *)
Definition str_int (n : Z) : string := NilZero.string_of_int (Z.to_int n).

(** [str(n)] for a count. *)
Definition str_nat (n : nat) : string := str_int (Z.of_nat n).

Fixpoint join (sep : string) (parts : list string) : string :=
  match parts with
  | [] => EmptyString
  | [p] => p
  | p :: rest => (p ++ sep ++ join sep rest)%string
  end.

(** The conversions CPython computes from tables and floating-point
    arithmetic that have no counterpart here: [repr] of a float (the
    shortest numeral that reads back), [repr] of a str (quoting and
    escapes), and [float(s)] of a numeral. *)
Class PythonText : Type := {
  float_repr : float -> string;
  str_repr : string -> string;
  float_of_str : string -> float
}.

Section Str.
Context {PT : PythonText}.

Fixpoint repr (v : pyval) : string :=
  match v with
  | PNone => "None"
  | PBool true => "True"
  | PBool false => "False"
  | PInt n => str_int n
  | PFloat x => float_repr x
  | PStr s => str_repr s
  | PList items => ("[" ++ join ", " (map repr items) ++ "]")%string
  | PDict entries =>
      ("{" ++ join ", "
         (map (fun kv => (str_repr (fst kv) ++ ": " ++ repr (snd kv))%string)
            entries) ++ "}")%string
  end.

(** [str(v)]: a str is itself, everything else is its [repr]. *)
Definition str (v : pyval) : string :=
  match v with
  | PStr s => s
  | _ => repr v
  end.
End Str.

Fixpoint lookup (key : string) (entries : list (string * pyval)) : option pyval :=
  match entries with
  | [] => None
  | (k, v) :: rest => if String.eqb key k then Some v else lookup key rest
  end.

(** [item.get(key)]: the value, [None] for a missing key; only a dict has
    the method. *)
Definition get (item : pyval) (key : string) : raises pyval :=
  match item with
  | PDict entries =>
      match lookup key entries with
      | Some v => ret v
      | None => ret PNone
      end
  | _ => raise AttributeError
  end.

(** ** The SQLite table *)

(** One cell of the table. *)
Inductive sqlval : Type :=
| SNull
| SInt (n : Z)
| SReal (x : float)
| SText (s : string).

(** The thirteen columns that [insert_data] fills, in the order of the
    INSERT statement. *)
Record columns (A : Type) : Type := Columns {
  title : A;
  topic : A;
  sector : A;
  region : A;
  country : A;
  source : A;
  end_year : A;
  intensity : A;
  likelihood : A;
  relevance : A;
  pest : A;
  swot : A;
  url : A
}.
Arguments Columns {A}.
Arguments title {A}. Arguments topic {A}. Arguments sector {A}.
Arguments region {A}. Arguments country {A}. Arguments source {A}.
Arguments end_year {A}. Arguments intensity {A}. Arguments likelihood {A}.
Arguments relevance {A}. Arguments pest {A}. Arguments swot {A}.
Arguments url {A}.

Definition timestamp : Type := string.

(** A row of [data]: the key, the thirteen columns and [added_date]. *)
Record row : Type := Row {
  id : Z;
  cells : columns sqlval;
  added_date : timestamp
}.

(** The database file: the rows of [data] in rowid order, and the entry
    of [sqlite_sequence] that AUTOINCREMENT keeps for the table (the
    largest rowid ever given out; DELETE does not reset it). *)
Record database : Type := Database {
  data : list row;
  sqlite_sequence : Z
}.

Definition max_rowid : Z := 9223372036854775807.
Definition min_int64 : Z := -9223372036854775808.

(** What the engine does on its own: the text it stores for a REAL put in
    a TEXT column, what it makes of a text or a REAL put in an INTEGER
    column, and the clock reading CURRENT_TIMESTAMP has when the row with
    a given rowid is inserted (rowids are never reused). *)
Class SqliteEngine : Type := {
  text_of_real : float -> string;
  numeric_of_text : string -> sqlval;
  integer_of_real : float -> sqlval;
  CURRENT_TIMESTAMP : Z -> timestamp
}.

(** Whether a str holds a lone surrogate: the byte ED followed by a byte
    from A0 to BF.  In the UTF-8 of every other character ED is followed
    by a byte from 80 to 9F. *)
Fixpoint has_surrogate (s : string) : bool :=
  match s with
  | EmptyString => false
  | String c rest =>
      match rest with
      | EmptyString => false
      | String d _ =>
          (Nat.eqb (nat_of_ascii c) 237 &&
           Nat.leb 160 (nat_of_ascii d) && Nat.leb (nat_of_ascii d) 191)%bool
          || has_surrogate rest
      end
  end.

(** How the sqlite3 module binds a Python value to a [?]. *)
Definition bind_parameter (v : pyval) : raises sqlval :=
  match v with
  | PNone => ret SNull
  | PBool b => ret (SInt (if b then 1 else 0))
  | PInt n =>
      if (min_int64 <=? n) && (n <=? max_rowid) then ret (SInt n)
      else raise OverflowError
  | PFloat x => ret (if PrimFloat.is_nan x then SNull else SReal x)
  | PStr s =>
      if has_surrogate s then raise UnicodeEncodeError else ret (SText s)
  | PList _ => raise ProgrammingError
  | PDict _ => raise ProgrammingError
  end.

Definition bind_parameters (p : columns pyval) : raises (columns sqlval) :=
  (v1 <- bind_parameter (title p) ;;
   v2 <- bind_parameter (topic p) ;;
   v3 <- bind_parameter (sector p) ;;
   v4 <- bind_parameter (region p) ;;
   v5 <- bind_parameter (country p) ;;
   v6 <- bind_parameter (source p) ;;
   v7 <- bind_parameter (end_year p) ;;
   v8 <- bind_parameter (intensity p) ;;
   v9 <- bind_parameter (likelihood p) ;;
   v10 <- bind_parameter (relevance p) ;;
   v11 <- bind_parameter (pest p) ;;
   v12 <- bind_parameter (swot p) ;;
   v13 <- bind_parameter (url p) ;;
   ret (Columns v1 v2 v3 v4 v5 v6 v7 v8 v9 v10 v11 v12 v13))%raises.

Section Engine.
Context {SE : SqliteEngine}.

(** Column affinity of the CREATE TABLE statement. *)
Definition text_affinity (v : sqlval) : sqlval :=
  match v with
  | SInt n => SText (str_int n)
  | SReal x => SText (text_of_real x)
  | _ => v
  end.

Definition integer_affinity (v : sqlval) : sqlval :=
  match v with
  | SText s => numeric_of_text s
  | SReal x => integer_of_real x
  | _ => v
  end.

Definition apply_affinity (v : columns sqlval) : columns sqlval :=
  {| title := text_affinity (title v);
     topic := text_affinity (topic v);
     sector := text_affinity (sector v);
     region := text_affinity (region v);
     country := text_affinity (country v);
     source := text_affinity (source v);
     end_year := text_affinity (end_year v);
     intensity := integer_affinity (intensity v);
     likelihood := integer_affinity (likelihood v);
     relevance := integer_affinity (relevance v);
     pest := text_affinity (pest v);
     swot := text_affinity (swot v);
     url := text_affinity (url v) |}.

(** INSERT INTO data (...) VALUES (?, ..., ?): the next rowid is one more
    than the largest ever used (no row is keyed above the sequence), and
    there is none after [max_rowid]. *)
Definition sql_insert (v : columns sqlval) (db : database) : raises database :=
  if sqlite_sequence db <? max_rowid then
    let rowid := sqlite_sequence db + 1 in
    ret {| data := data db ++
                   [ {| id := rowid;
                        cells := apply_affinity v;
                        added_date := CURRENT_TIMESTAMP rowid |} ];
           sqlite_sequence := rowid |}
  else raise OperationalError.

(** DELETE FROM data *)
Definition sql_delete (db : database) : database :=
  {| data := []; sqlite_sequence := sqlite_sequence db |}.
End Engine.

(** ** Connections *)

(** A connection opened by [sqlite3.connect(DATABASE)].  The module opens
    a transaction on its own before the first DELETE or INSERT, so what the
    connection writes stays [pending], unseen by every other connection,
    until [commit]; other connections read [committed]. *)
Record connection : Type := Connection {
  committed : database;
  pending : database
}.

(** How a statement ends: normally, or by raising; either way with the
    connection it leaves. *)
Inductive outcome : Type :=
| Done (conn : connection)
| Raised (e : exception) (conn : connection).

Definition connect (db : database) : connection :=
  {| committed := db; pending := db |}.

Definition commit (conn : connection) : connection :=
  {| committed := pending conn; pending := pending conn |}.

(** [conn.close()]: the file keeps what was committed. *)
Definition close (conn : connection) : database := committed conn.

Section Cursor.
Context {SE : SqliteEngine}.

(** c.execute('DELETE FROM data') *)
Definition execute_delete (conn : connection) : connection :=
  {| committed := committed conn; pending := sql_delete (pending conn) |}.

(** The open transaction is undone: the connection is back at what is
    committed. *)
Definition rollback (conn : connection) : connection :=
  {| committed := committed conn; pending := committed conn |}.

(** c.execute('INSERT INTO data (...) VALUES (?, ...)', params): the
    parameters are bound first, then the statement runs.  A parameter
    that does not bind leaves the connection as it was.  When the table
    has no rowid left the engine fails the statement with SQLITE_FULL and
    rolls the whole open transaction back; the next statement opens a
    new one. *)
Definition execute_insert (params : columns pyval) (conn : connection)
  : outcome :=
  match bind_parameters params with
  | inl e => Raised e conn
  | inr v =>
      match sql_insert v (pending conn) with
      | inr db => Done {| committed := committed conn; pending := db |}
      | inl e => Raised e (rollback conn)
      end
  end.
End Cursor.

(** ** backend.py *)

(** The dict that [insert_data] and the [process_*_file] functions return:
    either [{'count': .., 'message': ..}] or [{'error': ..}]. *)
Inductive result : Type :=
| Processed (count : nat) (message : string)
| Error (error : string).

(** The readers of the three upload formats, applied to the saved file:
    [json.load] on the opened file, and [pd.read_csv] / [pd.read_excel]
    followed by [to_dict('records')].  Each gives the decoded value, or
    [str(e)] of the exception it raised. *)
Class Decoders : Type := {
  json_load : string -> string + pyval;
  read_csv : string -> string + list pyval;
  read_excel : string -> string + list pyval
}.

(** ASCII lower-casing; on the comparison with ['append'] it agrees with
    [str.lower]. *)
Definition lower_ascii (c : ascii) : ascii :=
  let n := nat_of_ascii c in
  if (Nat.leb 65 n && Nat.leb n 90)%bool then ascii_of_nat (n + 32) else c.

Fixpoint lower (s : string) : string :=
  match s with
  | EmptyString => EmptyString
  | String c rest => String (lower_ascii c) (lower rest)
  end.

Section Backend.
Context {PT : PythonText} {SE : SqliteEngine} {DC : Decoders}.

(** The tuple of parameters built at lines 113-127. *)
Definition parameters (item : pyval) : raises (columns pyval) :=
  (v_title <- get item "title" ;;
   v_topic <- get item "topic" ;;
   v_sector <- get item "sector" ;;
   v_region <- get item "region" ;;
   v_country <- get item "country" ;;
   v_source <- get item "source" ;;
   y <- get item "end_year" ;;
   v_end_year <- (if truthy y
                  then (y' <- get item "end_year" ;; ret (PStr (str y')))
                  else ret PNone) ;;
   v_intensity <- get item "intensity" ;;
   v_likelihood <- get item "likelihood" ;;
   v_relevance <- get item "relevance" ;;
   v_pest <- get item "pest" ;;
   v_swot <- get item "swot" ;;
   v_url <- get item "url" ;;
   ret (Columns v_title v_topic v_sector v_region v_country v_source
          v_end_year v_intensity v_likelihood v_relevance v_pest v_swot
          v_url))%raises.

(** The body of the [try] at lines 105-128, up to [count += 1]. *)
Definition try_insert (item : pyval) (conn : connection) : outcome :=
  match parameters item with
  | inl e => Raised e conn
  | inr params => execute_insert params conn
  end.

(** The loop of lines 103-131: an exception skips the record. *)
Fixpoint insert_loop (data : list pyval) (conn : connection) (count : nat)
  : connection * nat :=
  match data with
  | [] => (conn, count)
  | item :: rest =>
      match try_insert item conn with
      | Done conn' => insert_loop rest conn' (S count)
      | Raised _ conn' => insert_loop rest conn' count
      end
  end.

Definition processed_message (count : nat) : string :=
  ("Successfully processed " ++ str_nat count ++ " records")%string.

Definition insert_data (data : list pyval) (append : bool) (db : database)
  : result * database :=
  let conn := connect db in
  let conn := if negb append then execute_delete conn else conn in
  let '(conn, count) := insert_loop data conn 0 in
  let conn := commit conn in
  (Processed count (processed_message count), close conn).

(** The states of the connection after each statement of [insert_data],
    in order: after [connect], after the DELETE (or nothing, when
    appending), after each turn of the loop, and after [commit]. *)
Fixpoint insert_loop_trace (data : list pyval) (conn : connection)
  : list connection :=
  match data with
  | [] => []
  | item :: rest =>
      let conn' := match try_insert item conn with
                   | Done conn' => conn'
                   | Raised _ conn' => conn'
                   end in
      conn' :: insert_loop_trace rest conn'
  end.

Definition insert_data_trace (data : list pyval) (append : bool)
  (db : database) : list connection :=
  let conn0 := connect db in
  let conn1 := if negb append then execute_delete conn0 else conn0 in
  let steps := insert_loop_trace data conn1 in
  [conn0; conn1] ++ steps ++ [commit (last steps conn1)].

Definition process_json_file (contents : string) (append : bool)
  (db : database) : result * database :=
  match json_load contents with
  | inr v =>
      let data := match v with
                  | PList items => items
                  | _ => [v]
                  end in
      insert_data data append db
  | inl e => (Error ("Error processing JSON file: " ++ e)%string, db)
  end.

Definition process_csv_file (contents : string) (append : bool)
  (db : database) : result * database :=
  match read_csv contents with
  | inr data => insert_data data append db
  | inl e => (Error ("Error processing CSV file: " ++ e)%string, db)
  end.

Definition process_excel_file (contents : string) (append : bool)
  (db : database) : result * database :=
  match read_excel contents with
  | inr data => insert_data data append db
  | inl e => (Error ("Error processing Excel file: " ++ e)%string, db)
  end.

(** Lines 168-171: a result with an ['error'] key is answered with 400,
    any other with 200. *)
Definition respond (r : result * database) : (nat * result) * database :=
  match fst r with
  | Error _ => ((400%nat, fst r), snd r)
  | Processed _ _ => ((200%nat, fst r), snd r)
  end.

(** Line 152-153: the form field, ['replace'] when it was not sent. *)
Definition is_append (option : option string) : bool :=
  let option := match option with Some o => o | None => "replace"%string end in
  String.eqb (lower option) "append".

(** [upload_file] from line 151 on, for a file that passed the checks
    and was saved: [file_ext] is the lower-cased extension of the saved
    name, [option] the form field if it was sent, [contents] the file.
    The answer is the HTTP status with the JSON body.  The [except] of
    line 173 is not reached from here: each of the three functions called
    catches its own exceptions. *)
Definition upload_file (file_ext : string) (option : option string)
  (contents : string) (db : database) : (nat * result) * database :=
  let append := is_append option in
  if String.eqb file_ext "json" then
    respond (process_json_file contents append db)
  else if String.eqb file_ext "csv" then
    respond (process_csv_file contents append db)
  else if (String.eqb file_ext "xlsx" || String.eqb file_ext "xls")%bool then
    respond (process_excel_file contents append db)
  else ((400%nat, Error "Unsupported file type"), db).

(** SELECT * FROM data [LIMIT ? OFFSET ?]: rows come in rowid order; a
    negative LIMIT is no limit and a negative OFFSET is 0. *)
Definition sql_select (page : option (Z * Z)) (db : database) : list row :=
  match page with
  | None => data db
  | Some (limit, offset) =>
      let rest := skipn (Z.to_nat offset) (data db) in
      if limit <? 0 then rest else firstn (Z.to_nat limit) rest
  end.

(** GET /api/data.  [limit] and [offset] are the query arguments when
    they parse as integers. *)
Definition get_data (limit : option Z) (offset : option Z) (db : database)
  : raises (list row) :=
  let offset := match offset with Some o => o | None => 0 end in
  match limit with
  | Some l =>
      (_ <- bind_parameter (PInt l) ;;
       _ <- bind_parameter (PInt offset) ;;
       ret (sql_select (Some (l, offset)) db))%raises
  | None => ret (sql_select None db)
  end.

(** GET /api/data/count *)
Definition get_data_count (db : database) : nat := List.length (data db).

(** DELETE /api/delete: the message and [remaining]. *)
Definition delete_data (db : database) : (string * nat) * database :=
  let conn := connect db in
  let conn := commit (execute_delete conn) in
  let remaining := List.length (data (pending conn)) in
  (("All data deleted successfully"%string, remaining), close conn).

Definition text_entry (k v : string) : string * pyval := (k, PStr v).

Definition sample_data : list pyval :=
  [ PDict [ text_entry "title" "Climate change impacts on agriculture";
            text_entry "topic" "climate";
            text_entry "sector" "agriculture";
            text_entry "region" "North America";
            text_entry "country" "United States";
            text_entry "source" "NASA";
            text_entry "end_year" "2025";
            ("intensity"%string, PInt 5);
            ("likelihood"%string, PInt 3);
            ("relevance"%string, PInt 4);
            text_entry "pest" "Environmental";
            text_entry "swot" "Threat";
            text_entry "url" "https://climate.nasa.gov" ];
    PDict [ text_entry "title" "Renewable energy adoption trends";
            text_entry "topic" "energy";
            text_entry "sector" "utilities";
            text_entry "region" "Europe";
            text_entry "country" "Germany";
            text_entry "source" "IEA";
            text_entry "end_year" "2023";
            ("intensity"%string, PInt 4);
            ("likelihood"%string, PInt 5);
            ("relevance"%string, PInt 5);
            text_entry "pest" "Technological";
            text_entry "swot" "Opportunity";
            text_entry "url" "https://www.iea.org" ] ].

(** POST /api/init *)
Definition init_database (db : database) : result * database :=
  insert_data sample_data false db.
End Backend.

(** ** The delimited-text decoder *)

Definition dquote : ascii := ascii_of_nat 34.
Definition comma : ascii := ascii_of_nat 44.
Definition newline : ascii := ascii_of_nat 10.
Definition carriage_return : ascii := ascii_of_nat 13.

Definition snoc (s : string) (c : ascii) : string :=
  (s ++ String c EmptyString)%string.

(** The table of a delimited text: rows of cells.  Inside quotes a comma
    or a newline is data and a doubled quote is one quote; blank lines are
    passed over. *)
Fixpoint csv_scan (s : string) (quoted : bool) (cell : string)
  (cells : list string) (rows : list (list string)) : list (list string) :=
  match s with
  | EmptyString =>
      match cell, cells with
      | EmptyString, [] => rows
      | _, _ => rows ++ [cells ++ [cell]]
      end
  | String c rest =>
      if quoted then
        if Ascii.eqb c dquote then
          match rest with
          | String c2 rest2 =>
              if Ascii.eqb c2 dquote
              then csv_scan rest2 true (snoc cell dquote) cells rows
              else csv_scan rest false cell cells rows
          | EmptyString => csv_scan rest false cell cells rows
          end
        else csv_scan rest true (snoc cell c) cells rows
      else if Ascii.eqb c dquote then csv_scan rest true cell cells rows
      else if Ascii.eqb c comma then
        csv_scan rest false EmptyString (cells ++ [cell]) rows
      else if Ascii.eqb c newline then
        csv_scan rest false EmptyString []
          match cell, cells with
          | EmptyString, [] => rows
          | _, _ => rows ++ [cells ++ [cell]]
          end
      else if Ascii.eqb c carriage_return then
        csv_scan rest false cell cells rows
      else csv_scan rest false (snoc cell c) cells rows
  end.

Fixpoint digits_value (s : string) (acc : Z) : option Z :=
  match s with
  | EmptyString => Some acc
  | String c rest =>
      let n := nat_of_ascii c in
      if (Nat.leb 48 n && Nat.leb n 57)%bool
      then digits_value rest (10 * acc + Z.of_nat (n - 48))
      else None
  end.

(** An optional sign and at least one digit. *)
Definition int_of_str (s : string) : option Z :=
  match s with
  | EmptyString => None
  | String c rest =>
      if Ascii.eqb c (ascii_of_nat 45) then
        match rest with
        | EmptyString => None
        | _ => option_map Z.opp (digits_value rest 0)
        end
      else if Ascii.eqb c (ascii_of_nat 43) then
        match rest with
        | EmptyString => None
        | _ => digits_value rest 0
        end
      else digits_value s 0
  end.

(** Where a decimal numeral stands while it is read: before its digits,
    in the integer part, after a leading point, in the fraction, after the
    exponent mark, after the sign of the exponent, in the exponent. *)
Inductive numeral_state : Type :=
| NStart | NInt | NPoint | NFrac | NExp | NExpSign | NExpDigits.

Definition is_digit (c : ascii) : bool :=
  let n := nat_of_ascii c in (Nat.leb 48 n && Nat.leb n 57)%bool.

Definition is_sign (c : ascii) : bool :=
  (Ascii.eqb c (ascii_of_nat 45) || Ascii.eqb c (ascii_of_nat 43))%bool.

Definition is_point (c : ascii) : bool := Ascii.eqb c (ascii_of_nat 46).

Definition is_exp_mark (c : ascii) : bool :=
  (Ascii.eqb c (ascii_of_nat 101) || Ascii.eqb c (ascii_of_nat 69))%bool.

Definition numeral_step (st : numeral_state) (c : ascii)
  : option numeral_state :=
  match st with
  | NStart =>
      if is_digit c then Some NInt
      else if is_point c then Some NPoint else None
  | NInt =>
      if is_digit c then Some NInt
      else if is_point c then Some NFrac
      else if is_exp_mark c then Some NExp else None
  | NPoint => if is_digit c then Some NFrac else None
  | NFrac =>
      if is_digit c then Some NFrac
      else if is_exp_mark c then Some NExp else None
  | NExp =>
      if is_digit c then Some NExpDigits
      else if is_sign c then Some NExpSign else None
  | NExpSign => if is_digit c then Some NExpDigits else None
  | NExpDigits => if is_digit c then Some NExpDigits else None
  end.

Fixpoint numeral_run (s : string) (st : numeral_state) : bool :=
  match s with
  | EmptyString =>
      match st with
      | NInt | NFrac | NExpDigits => true
      | _ => false
      end
  | String c rest =>
      match numeral_step st c with
      | Some st' => numeral_run rest st'
      | None => false
      end
  end.

(** A decimal numeral: an optional sign, digits with an optional point,
    an optional exponent. *)
Definition is_float_literal (s : string) : bool :=
  match s with
  | EmptyString => false
  | String c rest =>
      if is_sign c then numeral_run rest NStart else numeral_run s NStart
  end.

Section Csv.
Context {PT : PythonText}.

(** A cell: absent when empty, a number when it reads as one, else the
    text. *)
Definition csv_cell (s : string) : option pyval :=
  match s with
  | EmptyString => None
  | _ =>
      match int_of_str s with
      | Some n => Some (PInt n)
      | None =>
          if is_float_literal s then Some (PFloat (float_of_str s))
          else Some (PStr s)
      end
  end.

(** The field-mapping of a data row, keyed by the header; [None] when
    the row has more cells than the header has names. *)
Fixpoint csv_record (header cells : list string)
  : option (list (string * pyval)) :=
  match cells, header with
  | [], _ => Some []
  | _ :: _, [] => None
  | c :: cells', h :: header' =>
      match csv_record header' cells' with
      | None => None
      | Some entries =>
          match csv_cell c with
          | Some v => Some ((h, v) :: entries)
          | None => Some entries
          end
      end
  end.

Fixpoint csv_records (header : list string) (rows : list (list string))
  : string + list pyval :=
  match rows with
  | [] => inr []
  | r :: rows' =>
      match csv_record header r with
      | None => inl "MalformedTable"%string
      | Some entries =>
          match csv_records header rows' with
          | inl e => inl e
          | inr records => inr (PDict entries :: records)
          end
      end
  end.

(** Modelled from the spec: the delimited-text decoder.  The source
    calls [pd.read_csv] and [to_dict('records')], which are pandas code
    and not part of the repository.  The spec (4.2) has it parse a
    header row plus data rows in the standard comma-separated convention
    (quoted fields, embedded delimiters and newlines inside quotes), make
    of each data row one field-mapping keyed by the header names, read a
    cell as a number when it parses as one and as a string otherwise,
    leave empty cells absent, and fail when the column counts cannot be
    reconciled by padding with absent values. *)
Definition csv_decode (contents : string) : string + list pyval :=
  match csv_scan contents false EmptyString [] [] with
  | [] => inl "MalformedTable"%string
  | header :: rows => csv_records header rows
  end.

(** The decoders with the delimited-text decoder of the spec. *)
Definition with_csv_decode (DC : Decoders) : Decoders :=
  {| json_load := @json_load DC;
     read_csv := csv_decode;
     read_excel := @read_excel DC |}.
End Csv.

(** ** A concrete runtime *)

(** Instances on which the theorems below are run on concrete inputs.
    No float occurs in those inputs; the JSON reader knows three small
    documents and rejects the rest. *)
Definition example_text : PythonText :=
  {| float_repr := fun _ => "nan"%string;
     str_repr := fun s => ("'" ++ s ++ "'")%string;
     float_of_str := fun _ => PrimFloat.zero |}.

Definition example_engine : SqliteEngine :=
  {| text_of_real := fun _ => "0.0"%string;
     numeric_of_text := fun s => SText s;
     integer_of_real := fun x => SReal x;
     CURRENT_TIMESTAMP := fun _ => "2024-01-01 00:00:00"%string |}.

Definition quoted (s : string) : string :=
  String dquote (s ++ String dquote EmptyString).

(** The JSON document holding one record with a title. *)
Definition json_example : string :=
  ("[{" ++ quoted "title" ++ ": " ++ quoted "new" ++ "}]")%string.

Definition example_decoders : Decoders :=
  {| json_load := fun contents =>
       if String.eqb contents "[]" then inr (PList [])
       else if String.eqb contents "{}" then inr (PDict [])
       else if String.eqb contents json_example
       then inr (PList [PDict [("title"%string, PStr "new")]])
       else inl "Expecting value: line 1 column 1 (char 0)"%string;
     read_csv := fun _ => inl "No columns to parse from file"%string;
     read_excel := fun _ => inl "File is not a zip file"%string |}.

Definition empty_database : database := {| data := []; sqlite_sequence := 0 |}.

(** The text json.load gives for the escape \ud83d on its own: the three
    bytes ED A0 BD of a high surrogate with no low surrogate after it. *)
Definition lone_surrogate : string :=
  String (ascii_of_nat 237)
    (String (ascii_of_nat 160) (String (ascii_of_nat 189) EmptyString)).

Definition csv_example : string :=
  ("title,topic,intensity" ++ String newline
     (String dquote ("A,B" ++ String dquote ",x,5")))%string.

(** ** What a batch leaves in the table *)

Section Batch.
Context {PT : PythonText} {SE : SqliteEngine}.

(** The cells of a record whose parameters are built and bound without
    an exception. *)
Definition bound_cells (item : pyval) : raises (columns sqlval) :=
  (params <- parameters item ;; bind_parameters params)%raises.

(** The cells of the records of a batch that get as far as the INSERT. *)
Fixpoint accepted (items : list pyval) : list (columns sqlval) :=
  match items with
  | [] => []
  | item :: rest =>
      match bound_cells item with
      | inr v => v :: accepted rest
      | inl _ => accepted rest
      end
  end.

(** The rows made of the given cells, keyed from [seq + 1] on. *)
Fixpoint new_rows (vs : list (columns sqlval)) (seq : Z) : list row :=
  match vs with
  | [] => []
  | v :: rest =>
      {| id := seq + 1;
         cells := apply_affinity v;
         added_date := CURRENT_TIMESTAMP (seq + 1) |}
      :: new_rows rest (seq + 1)
  end.

(** The connection [insert_data] works on when the loop starts. *)
Definition opened (append : bool) (db : database) : connection :=
  if negb append then execute_delete (connect db) else connect db.

(** The connection of [insert_data] once rows of the cells [vs] have been
    added to what the loop started from: nothing is committed yet. *)
Definition batch_state (vs : list (columns sqlval)) (append : bool)
  (db : database) : connection :=
  {| committed := db;
     pending :=
       {| data := (if append then data db else []) ++
                  new_rows vs (sqlite_sequence db);
          sqlite_sequence :=
            sqlite_sequence db + Z.of_nat (List.length vs) |} |}.

(** Every row is keyed at or below the sequence, and keys are unique. *)
Definition db_ok (db : database) : Prop :=
  Forall (fun r => id r <= sqlite_sequence db) (data db) /\
  NoDup (map id (data db)).
End Batch.

(** The batch [upload_file] hands to [insert_data] for a file of the given
    extension (lines 159-164 with lines 67-70, 79-80 and 88-89), when the
    decoder of that extension reads the file. *)
Definition decoded_batch {DC : Decoders} (file_ext contents : string) :
  option (list pyval) :=
  if String.eqb file_ext "json" then
    match json_load contents with
    | inr (PList items) => Some items
    | inr v => Some [v]
    | inl _ => None
    end
  else if String.eqb file_ext "csv" then
    match read_csv contents with
    | inr data => Some data
    | inl _ => None
    end
  else if (String.eqb file_ext "xlsx" || String.eqb file_ext "xls")%bool then
    match read_excel contents with
    | inr data => Some data
    | inl _ => None
    end
  else None.

(** ** Well-formed records *)

(** The value a dict holds for a key, [None] when the key is missing. *)
Definition field (entries : list (string * pyval)) (key : string) : pyval :=
  match lookup key entries with
  | Some v => v
  | None => PNone
  end.

(** The JSON scalars that fit a cell: null, a boolean, a number (an
    integer within 64 bits) or a string without a lone surrogate. *)
Definition scalar (v : pyval) : bool :=
  match v with
  | PNone | PBool _ | PFloat _ => true
  | PStr s => negb (has_surrogate s)
  | PInt n => (min_int64 <=? n) && (n <=? max_rowid)
  | PList _ | PDict _ => false
  end.

(** The columns whose parameter is the value of the field itself. *)
Definition plain_columns : list string :=
  [ "title"; "topic"; "sector"; "region"; "country"; "source";
    "intensity"; "likelihood"; "relevance"; "pest"; "swot"; "url" ]%string.

Section Records.
Context {PT : PythonText}.

(** The parameter made of an end_year binds: when the value is truthy,
    its text holds no lone surrogate. *)
Definition end_year_binds (y : pyval) : bool :=
  if truthy y then negb (has_surrogate (str y)) else true.

(** A record that can be inserted: an object whose fields, end_year
    apart, are scalars where present, and whose end_year binds. *)
Definition insertable (item : pyval) : bool :=
  match item with
  | PDict entries =>
      forallb (fun key => scalar (field entries key)) plain_columns &&
      end_year_binds (field entries "end_year")
  | _ => false
  end.

(** A well-formed record: an object that can be inserted and whose
    end_year too, where present, is a scalar. *)
Definition well_formed (item : pyval) : bool :=
  match item with
  | PDict entries =>
      insertable item && scalar (field entries "end_year")
  | _ => false
  end.
End Records.

(** The cells of the two fixed sample records. *)
Definition sample_cells : list (columns sqlval) :=
  [ {| title := SText "Climate change impacts on agriculture";
       topic := SText "climate";
       sector := SText "agriculture";
       region := SText "North America";
       country := SText "United States";
       source := SText "NASA";
       end_year := SText "2025";
       intensity := SInt 5;
       likelihood := SInt 3;
       relevance := SInt 4;
       pest := SText "Environmental";
       swot := SText "Threat";
       url := SText "https://climate.nasa.gov" |};
    {| title := SText "Renewable energy adoption trends";
       topic := SText "energy";
       sector := SText "utilities";
       region := SText "Europe";
       country := SText "Germany";
       source := SText "IEA";
       end_year := SText "2023";
       intensity := SInt 4;
       likelihood := SInt 5;
       relevance := SInt 5;
       pest := SText "Technological";
       swot := SText "Opportunity";
       url := SText "https://www.iea.org" |} ].

(** A record with a title only, and the table holding it alone. *)
Definition titled (t : string) : pyval := PDict [("title"%string, PStr t)].

Definition one_row_database : database :=
  snd (@insert_data example_text example_engine [titled "old"] false
         empty_database).

Section BatchFacts.
Context {PT : PythonText} {SE : SqliteEngine}.

Lemma try_insert_unfold (item : pyval) (conn : connection) :
  try_insert item conn =
  match bound_cells item with
  | inl e => Raised e conn
  | inr v =>
      match sql_insert v (pending conn) with
      | inr db => Done {| committed := committed conn; pending := db |}
      | inl e => Raised e (rollback conn)
      end
  end.
Proof.
  unfold try_insert, bound_cells, execute_insert.
  destruct (parameters item) as [e | params]; reflexivity.
Qed.

Lemma new_rows_length (vs : list (columns sqlval)) (seq : Z) :
  List.length (new_rows vs seq) = List.length vs.
Proof.
  revert seq. induction vs as [| v vs IH]; intros seq; simpl; auto.
Qed.

Lemma new_rows_cells (vs : list (columns sqlval)) (seq : Z) :
  map cells (new_rows vs seq) = map apply_affinity vs.
Proof.
  revert seq. induction vs as [| v vs IH]; intros seq; simpl; f_equal; auto.
Qed.

Lemma new_rows_ids (vs : list (columns sqlval)) (seq : Z) :
  Forall (fun r => seq < id r <= seq + Z.of_nat (List.length vs))
    (new_rows vs seq).
Proof.
  revert seq. induction vs as [| v vs IH]; intros seq; simpl.
  - constructor.
  - constructor.
    + simpl. lia.
    + eapply Forall_impl; [| apply IH].
      intros r Hr. simpl in Hr. lia.
Qed.

(** The loop in closed form, when the rowids last for the batch. *)
Lemma insert_loop_spec (items : list pyval) :
  forall (conn : connection) (count : nat),
    sqlite_sequence (pending conn) + Z.of_nat (List.length (accepted items))
    <= max_rowid ->
    insert_loop items conn count =
    ({| committed := committed conn;
        pending :=
          {| data := data (pending conn) ++
                     new_rows (accepted items) (sqlite_sequence (pending conn));
             sqlite_sequence :=
               sqlite_sequence (pending conn) +
               Z.of_nat (List.length (accepted items)) |} |},
     (count + List.length (accepted items))%nat).
Proof.
  induction items as [| item rest IH]; intros conn count Hroom.
  - cbn [accepted insert_loop new_rows List.length Z.of_nat].
    destruct conn as [c [rows seq]]. cbn [pending committed data sqlite_sequence].
    rewrite app_nil_r, Z.add_0_r, Nat.add_0_r. reflexivity.
  - cbn [insert_loop]. rewrite try_insert_unfold.
    cbn [accepted] in Hroom |- *.
    destruct (bound_cells item) as [e | v].
    + apply IH, Hroom.
    + cbn [List.length] in Hroom. rewrite Nat2Z.inj_succ in Hroom.
      unfold sql_insert.
      destruct (sqlite_sequence (pending conn) <? max_rowid) eqn:Hlt.
      * cbn [ret]. rewrite IH by (cbn [pending sqlite_sequence]; lia).
        cbn [pending committed data sqlite_sequence new_rows List.length].
        rewrite <- app_assoc. cbn [app].
        rewrite Nat2Z.inj_succ, <- Nat.add_succ_comm.
        match goal with
        | |- context [?a + 1 + Z.of_nat ?n] =>
            replace (a + 1 + Z.of_nat n) with (a + Z.succ (Z.of_nat n)) by lia
        end.
        reflexivity.
      * apply Z.ltb_ge in Hlt. lia.
Qed.

(** What [insert_data] returns and leaves in the file, when the rowids
    last for the batch. *)
Lemma insert_data_spec (items : list pyval) (append : bool) (db : database) :
  sqlite_sequence db + Z.of_nat (List.length (accepted items)) <= max_rowid ->
  insert_data items append db =
  (Processed (List.length (accepted items))
     (processed_message (List.length (accepted items))),
   {| data := (if append then data db else []) ++
              new_rows (accepted items) (sqlite_sequence db);
      sqlite_sequence :=
        sqlite_sequence db + Z.of_nat (List.length (accepted items)) |}).
Proof.
  intros Hroom. unfold insert_data.
  rewrite insert_loop_spec by (destruct append; exact Hroom).
  destruct append; reflexivity.
Qed.
End BatchFacts.

(** ** Well-formed batches *)

Section WellFormed.
Context {PT : PythonText} {SE : SqliteEngine}.

Lemma get_dict (entries : list (string * pyval)) (key : string) :
  get (PDict entries) key = inr (field entries key).
Proof.
  unfold get, field. destruct (lookup key entries); reflexivity.
Qed.

Lemma scalar_binds (v : pyval) :
  scalar v = true -> exists c, bind_parameter v = inr c.
Proof.
  destruct v; cbn [scalar bind_parameter]; intros H; try discriminate;
    try (eexists; reflexivity).
  - rewrite H. eexists; reflexivity.
  - apply negb_true_iff in H. rewrite H. eexists; reflexivity.
Qed.

Lemma not_scalar_raises (v : pyval) :
  scalar v = false -> exists e, bind_parameter v = inl e.
Proof.
  destruct v; cbn [scalar bind_parameter]; intros H; try discriminate;
    try (eexists; reflexivity).
  - rewrite H. eexists; reflexivity.
  - apply negb_false_iff in H. rewrite H. eexists; reflexivity.
Qed.

(** What binding the parameter made of an end_year gives. *)
Lemma end_year_parameter (y : pyval) :
  bind_parameter (if truthy y then PStr (str y) else PNone) =
  if truthy y
  then (if has_surrogate (str y) then inl UnicodeEncodeError
        else inr (SText (str y)))
  else inr SNull.
Proof.
  destruct (truthy y); [| reflexivity].
  cbn [bind_parameter]. destruct (has_surrogate (str y)); reflexivity.
Qed.

(** The parameters of a dict are always built. *)
Lemma parameters_dict (entries : list (string * pyval)) :
  parameters (PDict entries) =
  inr {| title := field entries "title";
         topic := field entries "topic";
         sector := field entries "sector";
         region := field entries "region";
         country := field entries "country";
         source := field entries "source";
         end_year := if truthy (field entries "end_year")
                     then PStr (str (field entries "end_year"))
                     else PNone;
         intensity := field entries "intensity";
         likelihood := field entries "likelihood";
         relevance := field entries "relevance";
         pest := field entries "pest";
         swot := field entries "swot";
         url := field entries "url" |}.
Proof.
  unfold parameters. rewrite !get_dict. cbn [bind ret].
  destruct (truthy (field entries "end_year")); reflexivity.
Qed.

(** The parameters of a record bind exactly when the record is
    insertable. *)
Lemma bound_cells_insertable (item : pyval) :
  (exists v, bound_cells item = inr v) <-> insertable item = true.
Proof.
  destruct item as [| | | | | |entries];
    try (split; [intros [v H]; discriminate H | discriminate]).
  unfold bound_cells. rewrite parameters_dict. cbn [bind].
  unfold bind_parameters, insertable, plain_columns, end_year_binds.
  cbn [title topic sector region country source end_year intensity
       likelihood relevance pest swot url forallb].
  rewrite end_year_parameter.
  destruct (truthy (field entries "end_year"));
    [destruct (has_surrogate (str (field entries "end_year"))) |];
    cbn [negb];
    repeat match goal with
           | |- context [bind (bind_parameter (field entries ?k)) _] =>
               let E := fresh "E" in
               let S := fresh "S" in
               destruct (scalar (field entries k)) eqn:S;
               [ destruct (scalar_binds _ S) as [? E]; rewrite E;
                 cbn [bind andb]
               | destruct (not_scalar_raises _ S) as [? E]; rewrite E;
                 cbn [bind andb];
                 split; [intros [v H]; discriminate H | discriminate] ]
           end;
    (split;
     [ first [reflexivity | intros [v H]; discriminate H]
     | first [ rewrite ?andb_false_r; discriminate
             | intros _; eexists; reflexivity ] ]).
Qed.

Lemma well_formed_insertable (item : pyval) :
  well_formed item = true -> insertable item = true.
Proof.
  destruct item; try discriminate.
  unfold well_formed. intros H. apply andb_true_iff in H as [H _]. exact H.
Qed.

Lemma well_formed_bound (item : pyval) :
  well_formed item = true -> exists v, bound_cells item = inr v.
Proof.
  intros H. apply bound_cells_insertable, well_formed_insertable, H.
Qed.

Lemma accepted_insertable (items : list pyval) :
  List.length (accepted items) = List.length (filter insertable items).
Proof.
  induction items as [| item rest IH]; cbn [accepted filter]; [reflexivity |].
  destruct (bound_cells item) as [e | v] eqn:Hb.
  - destruct (insertable item) eqn:Hi; [| exact IH].
    apply bound_cells_insertable in Hi as [v Hv]. congruence.
  - assert (Hi : insertable item = true)
      by (apply bound_cells_insertable; exists v; exact Hb).
    rewrite Hi. cbn [List.length]. rewrite IH. reflexivity.
Qed.

Lemma filter_all {A} (f : A -> bool) (l : list A) :
  forallb f l = true -> filter f l = l.
Proof.
  induction l as [| x l IH]; cbn [forallb filter]; [reflexivity |].
  intros H. apply andb_true_iff in H as [-> H]. rewrite IH by exact H.
  reflexivity.
Qed.

Lemma accepted_all (items : list pyval) :
  forallb insertable items = true ->
  List.length (accepted items) = List.length items.
Proof.
  intros H. rewrite accepted_insertable, filter_all by exact H. reflexivity.
Qed.

Lemma accepted_length (items : list pyval) :
  forallb well_formed items = true ->
  List.length (accepted items) = List.length items.
Proof.
  intros H. apply accepted_all.
  rewrite forallb_forall in H |- *.
  intros item Hin. apply well_formed_insertable, H, Hin.
Qed.

Lemma accepted_bound (items : list pyval) :
  (List.length (accepted items) <= List.length items)%nat.
Proof.
  induction items as [| item rest IH]; cbn [accepted List.length].
  - constructor.
  - destruct (bound_cells item); cbn [List.length]; lia.
Qed.

Lemma well_formed_room (items : list pyval) (seq : Z) :
  forallb well_formed items = true ->
  seq + Z.of_nat (List.length items) <= max_rowid ->
  seq + Z.of_nat (List.length (accepted items)) <= max_rowid.
Proof.
  intros Hwf Hroom. rewrite accepted_length by assumption. exact Hroom.
Qed.

(** Whatever the batch, [insert_data] answers with a count and leaves
    what its connection held when the loop ended. *)
Lemma insert_data_unfold (items : list pyval) (append : bool) (db : database) :
  insert_data items append db =
  (Processed (snd (insert_loop items (opened append db) 0))
     (processed_message (snd (insert_loop items (opened append db) 0))),
   pending (fst (insert_loop items (opened append db) 0))).
Proof.
  unfold insert_data, opened.
  destruct (insert_loop items
              (if negb append then execute_delete (connect db) else connect db)
              0) as [conn count].
  reflexivity.
Qed.
End WellFormed.

(** ** Uploads *)

Section Uploads.
Context {PT : PythonText} {SE : SqliteEngine} {DC : Decoders}.

Lemma upload_json (option : option string) (contents : string) (db : database) :
  upload_file "json" option contents db =
  respond (process_json_file contents (is_append option) db).
Proof. reflexivity. Qed.

Lemma process_json_list (contents : string) (items : list pyval)
  (append : bool) (db : database) :
  json_load contents = inr (PList items) ->
  process_json_file contents append db = insert_data items append db.
Proof.
  intros H. unfold process_json_file. rewrite H. reflexivity.
Qed.

Lemma respond_insert_data (items : list pyval) (append : bool) (db : database) :
  respond (insert_data items append db) =
  ((200%nat, fst (insert_data items append db)),
   snd (insert_data items append db)).
Proof.
  rewrite insert_data_unfold. reflexivity.
Qed.

(** An upload whose file decodes is the insertion of the decoded batch. *)
Lemma upload_decoded (file_ext : string) (option : option string)
  (contents : string) (items : list pyval) (db : database) :
  decoded_batch file_ext contents = Some items ->
  upload_file file_ext option contents db =
  respond (insert_data items (is_append option) db).
Proof.
  unfold decoded_batch, upload_file,
    process_json_file, process_csv_file, process_excel_file.
  destruct (String.eqb file_ext "json").
  { destruct (json_load contents) as [e | v]; [discriminate |].
    destruct v; intros H; injection H as <-; reflexivity. }
  destruct (String.eqb file_ext "csv").
  { destruct (read_csv contents) as [e | d]; [discriminate |].
    intros H; injection H as <-; reflexivity. }
  destruct (String.eqb file_ext "xlsx" || String.eqb file_ext "xls")%bool.
  { destruct (read_excel contents) as [e | d]; [discriminate |].
    intros H; injection H as <-; reflexivity. }
  discriminate.
Qed.

(** The rows a batch adds are keyed above the sequence it started from. *)
Lemma new_rows_fresh (vs : list (columns sqlval)) (db : database) (r : row) :
  db_ok db -> In r (data db) -> ~ In r (new_rows vs (sqlite_sequence db)).
Proof.
  intros [Hle _] Hold Hnew.
  pose proof (new_rows_ids vs (sqlite_sequence db)) as Hids.
  rewrite Forall_forall in Hle, Hids.
  specialize (Hle r Hold). specialize (Hids r Hnew). lia.
Qed.

(** C1: for a JSON array of N well-formed records uploaded with
    option=replace, GET /api/data/count afterwards gives exactly N and no
    row that was in the table before is in it after. *)
Theorem replace_count_and_prior_gone
  (contents : string) (items : list pyval) (db : database) :
  json_load contents = inr (PList items) ->
  forallb well_formed items = true ->
  sqlite_sequence db + Z.of_nat (List.length items) <= max_rowid ->
  db_ok db ->
  let answer := upload_file "json" (Some "replace"%string) contents db in
  fst (fst answer) = 200%nat /\
  get_data_count (snd answer) = List.length items /\
  (forall r, In r (data db) -> ~ In r (data (snd answer))).
Proof.
  intros Hload Hwf Hroom Hok answer. subst answer.
  rewrite upload_json, (process_json_list _ _ _ _ Hload), respond_insert_data.
  change (is_append (Some "replace"%string)) with false.
  rewrite insert_data_spec by (apply well_formed_room; assumption).
  cbn [fst snd data app].
  split; [reflexivity | split].
  - unfold get_data_count. cbn [data].
    rewrite new_rows_length. apply accepted_length, Hwf.
  - intros r Hr. apply new_rows_fresh; assumption.
Qed.

(** C2: whatever the format of the upload (JSON, CSV or a spreadsheet),
    appending a decoded batch of N well-formed records to a table of M
    rows is answered with status 200 and count N, and leaves M + N rows,
    the first M of them being the old rows as they were. *)
Theorem append_count_and_frame
  (file_ext contents : string) (items : list pyval) (db : database) :
  decoded_batch file_ext contents = Some items ->
  forallb well_formed items = true ->
  sqlite_sequence db + Z.of_nat (List.length items) <= max_rowid ->
  let answer := upload_file file_ext (Some "append"%string) contents db in
  fst answer =
  (200%nat,
   Processed (List.length items) (processed_message (List.length items))) /\
  get_data_count (snd answer) = (get_data_count db + List.length items)%nat /\
  firstn (get_data_count db) (data (snd answer)) = data db.
Proof.
  intros Hload Hwf Hroom answer. subst answer.
  rewrite (upload_decoded _ _ _ _ _ Hload), respond_insert_data.
  change (is_append (Some "append"%string)) with true.
  rewrite insert_data_spec by (apply well_formed_room; assumption).
  cbn [fst snd data].
  rewrite (accepted_length _ Hwf).
  split; [reflexivity | split].
  - unfold get_data_count. cbn [data].
    rewrite length_app, new_rows_length.
    rewrite accepted_length by assumption. reflexivity.
  - unfold get_data_count.
    rewrite firstn_app, Nat.sub_diag, firstn_all. cbn [firstn].
    apply app_nil_r.
Qed.


(** C7: when the decoder of the upload's format fails, the answer is 400
    with an error body and the table is what it was, whatever the option. *)
Theorem decode_failure_leaves_store
  (file_ext : string) (option : option string) (contents e : string)
  (db : database) :
  (file_ext = "json"%string /\ json_load contents = inl e) \/
  (file_ext = "csv"%string /\ read_csv contents = inl e) \/
  ((file_ext = "xlsx"%string \/ file_ext = "xls"%string) /\
   read_excel contents = inl e) ->
  exists message,
    upload_file file_ext option contents db = ((400%nat, Error message), db).
Proof.
  intros [[-> H] | [[-> H] | [[-> | ->] H]]]; unfold upload_file;
    cbn [String.eqb Ascii.eqb Bool.eqb orb];
    unfold process_json_file, process_csv_file, process_excel_file;
    rewrite H; eexists; reflexivity.
Qed.
End Uploads.

(** ** Records that fail *)

Section Skipping.
Context {PT : PythonText} {SE : SqliteEngine}.

Lemma insert_loop_app (before after : list pyval) :
  forall (conn : connection) (count : nat),
    insert_loop (before ++ after) conn count =
    insert_loop after (fst (insert_loop before conn count))
      (snd (insert_loop before conn count)).
Proof.
  induction before as [| item rest IH]; intros conn count.
  - reflexivity.
  - cbn [app insert_loop].
    destruct (try_insert item conn); apply IH.
Qed.

(** A record whose parameters cannot be built or bound leaves the
    connection as it was. *)
Lemma unbound_record (item : pyval) (conn : connection) (e : exception) :
  bound_cells item = inl e -> try_insert item conn = Raised e conn.
Proof.
  intros H. rewrite try_insert_unfold, H. reflexivity.
Qed.

(** A record whose title is a lone surrogate is not bound: sqlite3 raises
    UnicodeEncodeError, and the record is skipped and not counted. *)
Lemma lone_surrogate_is_skipped (append : bool) (db : database) :
  bound_cells (titled lone_surrogate) = inl UnicodeEncodeError /\
  well_formed (titled lone_surrogate) = false /\
  insert_data [titled lone_surrogate] append db =
  (Processed 0 (processed_message 0), pending (opened append db)).
Proof.
  assert (H : bound_cells (titled lone_surrogate) = inl UnicodeEncodeError)
    by reflexivity.
  split; [exact H | split; [reflexivity |]].
  rewrite insert_data_unfold. cbn [insert_loop].
  rewrite (unbound_record _ _ _ H). reflexivity.
Qed.

(** Only a full table changes the connection of a statement that
    raises: the open transaction is rolled back. *)
Lemma raised_connection (item : pyval) (conn conn' : connection)
  (e : exception) :
  try_insert item conn = Raised e conn' ->
  conn' = conn \/
  (e = OperationalError /\ conn' = rollback conn /\
   max_rowid <= sqlite_sequence (pending conn)).
Proof.
  rewrite try_insert_unfold.
  destruct (bound_cells item) as [e0 | v].
  - intros H. injection H as <- <-. left. reflexivity.
  - unfold sql_insert.
    destruct (sqlite_sequence (pending conn) <? max_rowid) eqn:Hlt;
      cbn [ret raise]; [discriminate |].
    intros H. injection H as <- <-. right.
    apply Z.ltb_ge in Hlt. repeat split. exact Hlt.
Qed.

(** A loop over insertable records, started from a connection with room
    for them, stores one row for each and counts each. *)
Lemma insert_loop_insertable (items : list pyval) (conn : connection)
  (count : nat) :
  forallb insertable items = true ->
  sqlite_sequence (pending conn) + Z.of_nat (List.length items) <= max_rowid ->
  insert_loop items conn count =
  ({| committed := committed conn;
      pending :=
        {| data := data (pending conn) ++
                   new_rows (accepted items) (sqlite_sequence (pending conn));
           sqlite_sequence :=
             sqlite_sequence (pending conn) +
             Z.of_nat (List.length items) |} |},
   (count + List.length items)%nat).
Proof.
  intros Hins Hroom.
  rewrite insert_loop_spec;
    rewrite (accepted_all _ Hins); [reflexivity | exact Hroom].
Qed.

(** The loop over insertable records, from the connection [insert_data]
    opens. *)
Lemma insert_loop_opened (items : list pyval) (append : bool) (db : database) :
  forallb insertable items = true ->
  sqlite_sequence db + Z.of_nat (List.length items) <= max_rowid ->
  insert_loop items (opened append db) 0 =
  (batch_state (accepted items) append db, List.length items).
Proof.
  intros Hins Hroom.
  rewrite insert_loop_insertable; [| exact Hins | destruct append; exact Hroom].
  unfold batch_state. rewrite (accepted_all _ Hins).
  destruct append; reflexivity.
Qed.

(** C3: a record whose insertion raises is passed over.  In a batch whose
    other records are insertable, every record before the failing one and
    every record after it is stored, one row each and in the order of the
    batch, and the count returned is the number of those other records:
    the failing record is not counted and no error comes back.  Unless the
    table had run out of rowids, the answer and the table are those of the
    batch without the failing record, and the table then holds one row
    more for each other record. *)
Theorem failed_record_is_skipped
  (before after : list pyval) (bad : pyval) (append : bool) (db : database)
  (e : exception) (conn' : connection) :
  forallb insertable before = true ->
  forallb insertable after = true ->
  sqlite_sequence db + Z.of_nat (List.length before) <= max_rowid ->
  try_insert bad (batch_state (accepted before) append db) = Raised e conn' ->
  sqlite_sequence (pending conn') + Z.of_nat (List.length after)
  <= max_rowid ->
  insert_data (before ++ bad :: after) append db =
  (Processed (List.length before + List.length after)
     (processed_message (List.length before + List.length after)),
   {| data := data (pending conn') ++
              new_rows (accepted after) (sqlite_sequence (pending conn'));
      sqlite_sequence :=
        sqlite_sequence (pending conn') +
        Z.of_nat (List.length after) |}) /\
  (e <> OperationalError ->
   insert_data (before ++ bad :: after) append db =
   insert_data (before ++ after) append db /\
   snd (insert_data (before ++ bad :: after) append db) =
   pending (batch_state (accepted (before ++ after)) append db) /\
   get_data_count (snd (insert_data (before ++ bad :: after) append db)) =
   ((if append then get_data_count db else 0) +
    List.length before + List.length after)%nat).
Proof.
  intros Hbefore Hafter Hroom Hbad Hroom'.
  assert (Hgo : insert_loop (before ++ bad :: after) (opened append db) 0 =
                insert_loop after conn' (List.length before)).
  { rewrite insert_loop_app, (insert_loop_opened _ _ _ Hbefore Hroom).
    cbn [fst snd insert_loop]. rewrite Hbad. reflexivity. }
  split.
  { rewrite insert_data_unfold, Hgo.
    rewrite (insert_loop_insertable _ _ _ Hafter Hroom').
    reflexivity. }
  intros He.
  destruct (raised_connection _ _ _ _ Hbad) as [-> | [Hfull _]];
    [| contradiction].
  assert (Heq : insert_data (before ++ bad :: after) append db =
                insert_data (before ++ after) append db).
  { rewrite !insert_data_unfold, Hgo, (insert_loop_app before after).
    rewrite (insert_loop_opened _ _ _ Hbefore Hroom). reflexivity. }
  assert (Hboth : forallb insertable (before ++ after) = true)
    by (rewrite forallb_app, Hbefore, Hafter; reflexivity).
  assert (Hlen : List.length (accepted (before ++ after)) =
                 (List.length before + List.length after)%nat)
    by (rewrite (accepted_all _ Hboth); apply length_app).
  assert (Hroom2 : sqlite_sequence db +
                   Z.of_nat (List.length (accepted (before ++ after)))
                   <= max_rowid).
  { rewrite Hlen. unfold batch_state in Hroom'.
    cbn [pending sqlite_sequence] in Hroom'.
    rewrite (accepted_all _ Hbefore) in Hroom'.
    revert Hroom'. generalize max_rowid. intros m Hroom'. lia. }
  split; [exact Heq |].
  rewrite Heq, (insert_data_spec _ _ _ Hroom2). cbn [snd].
  split; [reflexivity |].
  unfold get_data_count. cbn [data].
  rewrite length_app, new_rows_length, Hlen.
  destruct append; cbn [List.length]; lia.
Qed.
End Skipping.

(** ** The end_year column *)

Section EndYear.
Context {PT : PythonText} {SE : SqliteEngine}.

(** C4, as the code has it: the parameter for end_year is the text
    [str(v)] when the value [v] of the field is truthy, and [None] in
    every other case, that is when the field is missing, null, false, a
    zero, or an empty string, list or object; the cell stored is that
    text, or NULL, and a text with a lone surrogate does not bind. *)
Theorem end_year_normalization (entries : list (string * pyval)) :
  let v := field entries "end_year" in
  exists p : columns pyval,
    parameters (PDict entries) = inr p /\
    end_year p = (if truthy v then PStr (str v) else PNone) /\
    bind (bind_parameter (end_year p)) (fun c => ret (text_affinity c)) =
    (if truthy v
     then (if has_surrogate (str v) then inl UnicodeEncodeError
           else inr (SText (str v)))
     else inr SNull).
Proof.
  intros v. subst v. eexists. split; [apply parameters_dict |].
  cbn [end_year]. split; [reflexivity |].
  rewrite end_year_parameter.
  destruct (truthy (field entries "end_year")); [| reflexivity].
  destruct (has_surrogate (str (field entries "end_year"))); reflexivity.
Qed.

(** A number is stored as its numeral. *)
Lemma end_year_2025 (entries : list (string * pyval)) :
  field entries "end_year" = PInt 2025 ->
  exists p : columns pyval,
    parameters (PDict entries) = inr p /\ end_year p = PStr "2025".
Proof.
  intros H. eexists. split; [apply parameters_dict |].
  cbn [end_year]. rewrite H. reflexivity.
Qed.

(** A field that is missing or null gives [None]. *)
Lemma end_year_absent (entries : list (string * pyval)) :
  field entries "end_year" = PNone ->
  exists p : columns pyval,
    parameters (PDict entries) = inr p /\ end_year p = PNone.
Proof.
  intros H. eexists. split; [apply parameters_dict |].
  cbn [end_year]. rewrite H. reflexivity.
Qed.
End EndYear.

(** C4 as stated fails: an end_year that is present and not null, the
    number 0, is stored as NULL and not as its text. *)
Lemma end_year_zero_is_null :
  get (PDict [("end_year"%string, PInt 0)]) "end_year" = inr (PInt 0) /\
  map (fun r => end_year (cells r))
    (data (snd (@insert_data example_text example_engine
                  [PDict [("end_year"%string, PInt 0)]] false empty_database)))
  = [SNull].
Proof. split; reflexivity. Qed.

(** ** The sample records and the CSV example *)

Section Fixed.
Context {PT : PythonText} {SE : SqliteEngine}.

Lemma accepted_sample_data :
  map apply_affinity (accepted sample_data) = sample_cells /\
  List.length (accepted sample_data) = 2%nat.
Proof. split; reflexivity. Qed.

Lemma init_database_spec (db : database) :
  sqlite_sequence db + 2 <= max_rowid ->
  init_database db =
  (Processed 2 "Successfully processed 2 records",
   {| data := new_rows (accepted sample_data) (sqlite_sequence db);
      sqlite_sequence := sqlite_sequence db + 2 |}).
Proof.
  intros Hroom. unfold init_database.
  rewrite insert_data_spec.
  - reflexivity.
  - destruct accepted_sample_data as [_ ->]. exact Hroom.
Qed.

(** C8: POST /api/init answers count 2 and leaves exactly the two sample
    records, whatever the table held; called again it leaves the same two
    records, not four. *)
Theorem init_database_idempotent (db : database) :
  sqlite_sequence db + 4 <= max_rowid ->
  let first := init_database db in
  let second := init_database (snd first) in
  fst first = Processed 2 "Successfully processed 2 records" /\
  get_data None None (snd first) = inr (data (snd first)) /\
  map cells (data (snd first)) = sample_cells /\
  fst second = Processed 2 "Successfully processed 2 records" /\
  get_data None None (snd second) = inr (data (snd second)) /\
  map cells (data (snd second)) = sample_cells.
Proof.
  intros Hroom first second. subst second first.
  assert (H1 : sqlite_sequence db + 2 <= max_rowid) by lia.
  rewrite (init_database_spec db H1). cbn [fst snd].
  rewrite init_database_spec by (cbn [sqlite_sequence]; lia).
  cbn [fst snd data]. rewrite !new_rows_cells.
  destruct accepted_sample_data as [-> _].
  repeat split.
Qed.

(** The keys of the second pair are new ones. *)
Lemma init_database_keys (db : database) :
  sqlite_sequence db + 2 <= max_rowid ->
  map id (data (snd (init_database db))) =
  [sqlite_sequence db + 1; sqlite_sequence db + 1 + 1].
Proof.
  intros Hroom. rewrite (init_database_spec db Hroom). reflexivity.
Qed.

Lemma csv_example_decoded :
  csv_decode csv_example =
  inr [PDict [("title"%string, PStr "A,B"); ("topic"%string, PStr "x");
              ("intensity"%string, PInt 5)]].
Proof. reflexivity. Qed.

(** C5: the CSV with header title,topic,intensity and the one row
    "A,B",x,5 leaves one record with title A,B, topic x, intensity 5 and
    NULL in every other column. *)
Theorem csv_example_stored (DC : Decoders) (db : database) :
  sqlite_sequence db < max_rowid ->
  @upload_file PT SE (with_csv_decode DC) "csv" None csv_example db =
  ((200%nat, Processed 1 "Successfully processed 1 records"),
   {| data :=
        [ {| id := sqlite_sequence db + 1;
             cells := {| title := SText "A,B";
                         topic := SText "x";
                         sector := SNull;
                         region := SNull;
                         country := SNull;
                         source := SNull;
                         end_year := SNull;
                         intensity := SInt 5;
                         likelihood := SNull;
                         relevance := SNull;
                         pest := SNull;
                         swot := SNull;
                         url := SNull |};
             added_date := CURRENT_TIMESTAMP (sqlite_sequence db + 1) |} ];
      sqlite_sequence := sqlite_sequence db + 1 |}).
Proof.
  intros Hroom. unfold upload_file.
  cbn [String.eqb Ascii.eqb Bool.eqb].
  unfold process_csv_file. cbn [read_csv with_csv_decode].
  rewrite csv_example_decoded.
  change (is_append None) with false.
  rewrite insert_data_spec.
  - reflexivity.
  - change (List.length (accepted _)) with 1%nat.
    revert Hroom. generalize max_rowid. intros m Hroom. lia.
Qed.
End Fixed.

(** ** Listing *)

(** C6, as the code has it: without a limit the listing is the whole
    table, whatever the offset; with a limit, a missing offset is 0. *)
Theorem get_data_without_limit (offset : option Z) (db : database) :
  get_data None offset db = inr (data db) /\
  forall limit : Z, get_data (Some limit) None db = get_data (Some limit) (Some 0) db.
Proof.
  split; [destruct offset |]; reflexivity.
Qed.

(** With both given, in range: the page of the table. *)
Lemma get_data_page (limit offset : Z) (db : database) :
  0 <= limit <= max_rowid -> 0 <= offset <= max_rowid ->
  get_data (Some limit) (Some offset) db =
  inr (firstn (Z.to_nat limit) (skipn (Z.to_nat offset) (data db))).
Proof.
  intros Hl Ho. unfold get_data, bind_parameter, sql_select.
  assert (E1 : (min_int64 <=? limit) && (limit <=? max_rowid) = true).
  { apply andb_true_iff. unfold min_int64. split; apply Z.leb_le; lia. }
  assert (E2 : (min_int64 <=? offset) && (offset <=? max_rowid) = true).
  { apply andb_true_iff. unfold min_int64. split; apply Z.leb_le; lia. }
  rewrite E1, E2. cbn [bind ret].
  destruct (limit <? 0) eqn:E; [apply Z.ltb_lt in E; lia | reflexivity].
Qed.

(** C6 as stated fails: with no limit and offset 1 the listing of a
    two-row table is both rows, not the one row from offset 1 on. *)
Lemma get_data_ignores_offset :
  get_data None (Some 1)
    (snd (@init_database example_text example_engine empty_database)) =
  inr (data (snd (@init_database example_text example_engine empty_database)))
  /\
  List.length
    (data (snd (@init_database example_text example_engine empty_database))) =
  2%nat /\
  List.length
    (skipn 1
       (data (snd (@init_database example_text example_engine empty_database)))) =
  1%nat.
Proof. repeat split. Qed.

(** ** What other connections see *)

Section Transaction.
Context {PT : PythonText} {SE : SqliteEngine}.

Lemma try_insert_committed (item : pyval) (conn : connection) :
  match try_insert item conn with
  | Done conn' => committed conn' = committed conn
  | Raised _ conn' => committed conn' = committed conn
  end.
Proof.
  rewrite try_insert_unfold.
  destruct (bound_cells item) as [e | v]; [reflexivity |].
  destruct (sql_insert v (pending conn)) as [e | db]; reflexivity.
Qed.

(** No turn of the loop touches what is committed. *)
Lemma insert_loop_trace_committed (items : list pyval) :
  forall conn : connection,
    Forall (fun c => committed c = committed conn)
      (insert_loop_trace items conn).
Proof.
  induction items as [| item rest IH]; intros conn; cbn [insert_loop_trace].
  - constructor.
  - pose proof (try_insert_committed item conn) as Hc.
    destruct (try_insert item conn) as [conn' | e conn'];
      (constructor; [exact Hc | rewrite <- Hc; apply IH]).
Qed.

Lemma last_cons_default {A} (l : list A) (a d : A) :
  last (a :: l) d = last l a.
Proof.
  revert a d. induction l as [| b l IH]; intros a d; [reflexivity |].
  change (last (a :: b :: l) d) with (last (b :: l) d).
  rewrite (IH b d), (IH b a). reflexivity.
Qed.

(** The last state of the trace of the loop is the state the loop ends
    in. *)
Lemma insert_loop_trace_last (items : list pyval) :
  forall (conn : connection) (count : nat),
    last (insert_loop_trace items conn) conn =
    fst (insert_loop items conn count).
Proof.
  induction items as [| item rest IH]; intros conn count.
  - reflexivity.
  - cbn [insert_loop_trace insert_loop].
    destruct (try_insert item conn) as [conn' | e conn'].
    + rewrite <- (IH conn' (S count)). apply last_cons_default.
    + rewrite <- (IH conn' count). apply last_cons_default.
Qed.

(** C9, as the code has it: in replace mode the DELETE is the first
    statement, run before any INSERT of the batch, on the connection on
    which the inserts follow; the delete and the inserts are one
    transaction, committed once at the end, so that at every point before
    the commit another connection still reads the table as it was, and
    after it the table [insert_data] leaves. *)
Theorem replace_is_one_transaction
  (items : list pyval) (append : bool) (db : database) :
  let trace := insert_data_trace items append db in
  (append = false ->
   nth 1 trace (connect db) = execute_delete (connect db) /\
   data (pending (nth 1 trace (connect db))) = [] /\
   skipn 2 (removelast trace) =
   insert_loop_trace items (execute_delete (connect db))) /\
  Forall (fun c => committed c = db) (removelast trace) /\
  committed (last trace (connect db)) = snd (insert_data items append db).
Proof.
  intros trace. subst trace. unfold insert_data_trace.
  set (conn0 := connect db).
  set (conn1 := if negb append then execute_delete conn0 else conn0).
  set (steps := insert_loop_trace items conn1).
  assert (Hcut : removelast ([conn0; conn1] ++ steps ++ [commit (last steps conn1)])
                 = [conn0; conn1] ++ steps).
  { rewrite app_assoc. apply removelast_last. }
  assert (Hc1 : committed conn1 = db).
  { subst conn1 conn0. destruct append; reflexivity. }
  split; [| split].
  - intros ->. rewrite Hcut. subst steps conn1. cbn [negb].
    repeat split.
  - rewrite Hcut. cbn [app].
    constructor; [reflexivity |]. constructor; [exact Hc1 |].
    rewrite <- Hc1. apply insert_loop_trace_committed.
  - rewrite app_assoc, last_last.
    rewrite insert_data_unfold. cbn [snd commit committed].
    subst steps. rewrite (insert_loop_trace_last items conn1 0).
    reflexivity.
Qed.
End Transaction.

(** C9 as stated fails: while a one-record batch replaces a one-row
    table, the count another connection reads is 1 after every statement,
    never 0. *)
Lemma replace_never_shows_empty :
  map (fun c => get_data_count (committed c))
    (@insert_data_trace example_text example_engine [titled "new"] false
       one_row_database) = [1; 1; 1; 1]%nat /\
  map (fun c => get_data_count (pending c))
    (@insert_data_trace example_text example_engine [titled "new"] false
       one_row_database) = [1; 0; 1; 1]%nat.
Proof. split; reflexivity. Qed.

(** ** The table stays well keyed *)

Section Invariant.
Context {PT : PythonText} {SE : SqliteEngine}.

Lemma new_rows_NoDup (vs : list (columns sqlval)) (seq : Z) :
  NoDup (map id (new_rows vs seq)).
Proof.
  revert seq. induction vs as [| v vs IH]; intros seq; cbn [new_rows map].
  - constructor.
  - constructor; [| apply IH].
    cbn [id]. intros Hin.
    apply in_map_iff in Hin as (r & E & Hr).
    pose proof (new_rows_ids vs (seq + 1)) as Hids.
    rewrite Forall_forall in Hids. specialize (Hids r Hr). lia.
Qed.

Lemma empty_database_ok : db_ok empty_database.
Proof. split; constructor. Qed.

Lemma sql_insert_ok (v : columns sqlval) (db db' : database) :
  db_ok db -> sql_insert v db = inr db' -> db_ok db'.
Proof.
  intros [Hle Hnd]. unfold sql_insert.
  destruct (sqlite_sequence db <? max_rowid); [| discriminate].
  intros H. injection H as <-.
  rewrite Forall_forall in Hle.
  split; cbn [data sqlite_sequence].
  - apply Forall_app. split.
    + apply Forall_forall. intros r Hr. specialize (Hle r Hr). lia.
    + constructor; [cbn [id]; lia | constructor].
  - rewrite map_app. cbn [map id].
    apply NoDup_app; [exact Hnd | repeat constructor; intros [] |].
    intros k Hold [<- | []].
    apply in_map_iff in Hold as (r & E & Hr).
    specialize (Hle r Hr). lia.
Qed.

(** A connection whose two tables are well keyed. *)
Definition conn_ok (conn : connection) : Prop :=
  db_ok (committed conn) /\ db_ok (pending conn).

Lemma try_insert_ok (item : pyval) (conn : connection) :
  conn_ok conn ->
  match try_insert item conn with
  | Done conn' => conn_ok conn'
  | Raised _ conn' => conn_ok conn'
  end.
Proof.
  intros [Hc Hp]. rewrite try_insert_unfold.
  destruct (bound_cells item) as [e | v]; [split; assumption |].
  destruct (sql_insert v (pending conn)) as [e | db] eqn:Hins.
  - split; exact Hc.
  - split; [exact Hc | exact (sql_insert_ok _ _ _ Hp Hins)].
Qed.

Lemma insert_loop_ok (items : list pyval) :
  forall (conn : connection) (count : nat),
    conn_ok conn -> conn_ok (fst (insert_loop items conn count)).
Proof.
  induction items as [| item rest IH]; intros conn count Hok.
  - exact Hok.
  - cbn [insert_loop]. pose proof (try_insert_ok item conn Hok) as Hstep.
    destruct (try_insert item conn) as [conn' | e conn']; apply IH, Hstep.
Qed.

(** [insert_data] keeps keys unique and at or below the sequence. *)
Lemma insert_data_ok (items : list pyval) (append : bool) (db : database) :
  db_ok db -> db_ok (snd (insert_data items append db)).
Proof.
  intros Hok. rewrite insert_data_unfold. cbn [snd].
  apply insert_loop_ok. unfold opened.
  destruct append; cbn [negb]; split; try exact Hok.
  split; constructor.
Qed.

Lemma delete_data_ok (db : database) :
  db_ok db -> db_ok (snd (delete_data db)).
Proof. intros _. split; constructor. Qed.
End Invariant.

(** ** The theorems on concrete inputs *)

Lemma one_row_database_ok : db_ok one_row_database.
Proof.
  exact (@insert_data_ok example_text example_engine [titled "old"] false
           empty_database empty_database_ok).
Qed.

Lemma replace_count_and_prior_gone_witness :
  let answer :=
    @upload_file example_text example_engine example_decoders "json"
      (Some "replace"%string) json_example one_row_database in
  fst (fst answer) = 200%nat /\
  get_data_count (snd answer) = 1%nat /\
  (forall r, In r (data one_row_database) -> ~ In r (data (snd answer))).
Proof.
  apply (@replace_count_and_prior_gone example_text example_engine
           example_decoders json_example [titled "new"] one_row_database).
  - reflexivity.
  - reflexivity.
  - vm_compute. discriminate.
  - exact one_row_database_ok.
Defined.

Lemma append_count_and_frame_witness :
  let answer :=
    @upload_file example_text example_engine
      (@with_csv_decode example_text example_decoders) "csv"
      (Some "append"%string) csv_example one_row_database in
  fst answer = (200%nat, Processed 1 (processed_message 1)) /\
  get_data_count (snd answer) = 2%nat /\
  firstn 1 (data (snd answer)) = data one_row_database.
Proof.
  apply (@append_count_and_frame example_text example_engine
           (@with_csv_decode example_text example_decoders) "csv" csv_example
           [PDict [("title"%string, PStr "A,B"); ("topic"%string, PStr "x");
                   ("intensity"%string, PInt 5)]]
           one_row_database).
  - reflexivity.
  - reflexivity.
  - vm_compute. discriminate.
Defined.

Lemma failed_record_is_skipped_witness :
  @insert_data example_text example_engine
    ([titled "a"] ++ PInt 3 :: [titled "b"]) false one_row_database =
  (Processed 2 (processed_message 2),
   {| data :=
        @new_rows example_engine
          (@accepted example_text [titled "a"; titled "b"])
          (sqlite_sequence one_row_database);
      sqlite_sequence := sqlite_sequence one_row_database + 2 |}) /\
  (AttributeError <> OperationalError ->
   @insert_data example_text example_engine
     ([titled "a"] ++ PInt 3 :: [titled "b"]) false one_row_database =
   @insert_data example_text example_engine
     ([titled "a"] ++ [titled "b"]) false one_row_database /\
   snd (@insert_data example_text example_engine
          ([titled "a"] ++ PInt 3 :: [titled "b"]) false one_row_database) =
   pending (@batch_state example_engine
              (@accepted example_text ([titled "a"] ++ [titled "b"]))
              false one_row_database) /\
   get_data_count
     (snd (@insert_data example_text example_engine
             ([titled "a"] ++ PInt 3 :: [titled "b"]) false
             one_row_database)) = 2%nat).
Proof.
  apply (@failed_record_is_skipped example_text example_engine
           [titled "a"] [titled "b"] (PInt 3) false one_row_database
           AttributeError
           (@batch_state example_engine (@accepted example_text [titled "a"])
              false one_row_database)).
  - reflexivity.
  - reflexivity.
  - vm_compute. discriminate.
  - reflexivity.
  - vm_compute. discriminate.
Defined.

Lemma csv_example_stored_witness :
  fst (@upload_file example_text example_engine
         (@with_csv_decode example_text example_decoders) "csv" None
         csv_example empty_database) =
  (200%nat, Processed 1 "Successfully processed 1 records").
Proof.
  rewrite (@csv_example_stored example_text example_engine example_decoders
             empty_database).
  - reflexivity.
  - reflexivity.
Defined.

Lemma decode_failure_leaves_store_witness :
  exists message,
    @upload_file example_text example_engine example_decoders "json"
      (Some "replace"%string) "{" one_row_database =
    ((400%nat, Error message), one_row_database).
Proof.
  apply (@decode_failure_leaves_store example_text example_engine
           example_decoders "json" (Some "replace"%string) "{"
           "Expecting value: line 1 column 1 (char 0)" one_row_database).
  left. split; reflexivity.
Defined.

Lemma init_database_idempotent_witness :
  let first := @init_database example_text example_engine one_row_database in
  let second := @init_database example_text example_engine (snd first) in
  fst first = Processed 2 "Successfully processed 2 records" /\
  get_data None None (snd first) = inr (data (snd first)) /\
  map cells (data (snd first)) = sample_cells /\
  fst second = Processed 2 "Successfully processed 2 records" /\
  get_data None None (snd second) = inr (data (snd second)) /\
  map cells (data (snd second)) = sample_cells.
Proof.
  apply (@init_database_idempotent example_text example_engine
           one_row_database).
  vm_compute. discriminate.
Defined.


(** A table one rowid short of the end.  The first record of a replacing
    batch takes the last rowid; the second finds the table full, and the
    transaction, DELETE included, is rolled back; the third is then
    inserted after the old row.  Two records are counted. *)
Definition nearly_full_database : database :=
  {| data := [ {| id := max_rowid - 1;
                  cells := Columns (SText "old") SNull SNull SNull SNull SNull
                             SNull SNull SNull SNull SNull SNull SNull;
                  added_date := "2024-01-01 00:00:00"%string |} ];
     sqlite_sequence := max_rowid - 1 |}.

Lemma full_table_rolls_back :
  let answer :=
    @insert_data example_text example_engine
      [titled "a"; titled "b"; titled "c"] false nearly_full_database in
  fst answer = Processed 2 "Successfully processed 2 records" /\
  map (fun r => (id r, title (cells r))) (data (snd answer)) =
  [(max_rowid - 1, SText "old"); (max_rowid, SText "c")].
Proof. split; reflexivity. Qed.

(** * The rest of backend.py *)

From Stdlib Require Import Sorted.

(** ** allowed_file *)

Definition dot : ascii := ascii_of_nat 46.

(** [filename.rsplit('.', 1)[1]]: what follows the last dot, when the name
    has one. *)
Fixpoint after_last_dot (s : string) : option string :=
  match s with
  | EmptyString => None
  | String c rest =>
      match after_last_dot rest with
      | Some ext => Some ext
      | None => if Ascii.eqb c dot then Some rest else None
      end
  end.

Definition ALLOWED_EXTENSIONS : list string :=
  [ "json"; "csv"; "xlsx"; "xls" ]%string.

(** Lines 60-62.  Of the characters [str.lower] changes, only the ASCII
    capitals become letters of the four extensions, so [lower] decides
    the membership as [str.lower] does. *)
Definition allowed_file (filename : string) : bool :=
  match after_last_dot filename with
  | Some ext => existsb (String.eqb (lower ext)) ALLOWED_EXTENSIONS
  | None => false
  end.

Lemma append_assoc_string (a b c : string) :
  ((a ++ b) ++ c)%string = (a ++ (b ++ c))%string.
Proof.
  induction a as [| x a IH]; cbn [String.append]; [reflexivity |].
  rewrite IH. reflexivity.
Qed.

(** What follows the last dot has no dot, and the name is a stem, a dot
    and it. *)
Lemma after_last_dot_some (s ext : string) :
  after_last_dot s = Some ext ->
  after_last_dot ext = None /\
  exists stem, s = (stem ++ String dot ext)%string.
Proof.
  revert ext. induction s as [| c rest IH]; intros ext; cbn [after_last_dot].
  - discriminate.
  - destruct (after_last_dot rest) as [ext' |] eqn:Hrest.
    + intros H. injection H as <-.
      destruct (IH ext' eq_refl) as [Hno [stem ->]].
      split; [exact Hno |]. exists (String c stem). reflexivity.
    + destruct (Ascii.eqb c dot) eqn:Hc; [| discriminate].
      intros H. injection H as <-.
      apply Ascii.eqb_eq in Hc. subst c.
      split; [exact Hrest |]. exists EmptyString. reflexivity.
Qed.

Lemma after_last_dot_split (stem ext : string) :
  after_last_dot ext = None ->
  after_last_dot (stem ++ String dot ext) = Some ext.
Proof.
  intros Hno. induction stem as [| c stem IH]; cbn [String.append after_last_dot].
  - rewrite Hno, Ascii.eqb_refl. reflexivity.
  - rewrite IH. reflexivity.
Qed.

(** X1: a name is allowed exactly when it is a stem, a dot and a dot-free
    extension that is one of json, csv, xlsx, xls once lower-cased; only
    the last extension counts. *)
Theorem allowed_file_iff (filename : string) :
  allowed_file filename = true <->
  exists stem ext,
    filename = (stem ++ String dot ext)%string /\
    after_last_dot ext = None /\
    In (lower ext) ALLOWED_EXTENSIONS.
Proof.
  unfold allowed_file. split.
  - destruct (after_last_dot filename) as [ext |] eqn:H; [| discriminate].
    intros Hin. destruct (after_last_dot_some _ _ H) as [Hno [stem ->]].
    exists stem, ext. repeat split; [exact Hno |].
    apply existsb_exists in Hin as (x & Hx & E).
    apply String.eqb_eq in E. subst x. exact Hx.
  - intros (stem & ext & -> & Hno & Hin).
    rewrite (after_last_dot_split _ _ Hno).
    apply existsb_exists. exists (lower ext). split; [exact Hin |].
    apply String.eqb_refl.
Qed.

(** A name without a dot is refused, whatever it is: the bare word json
    is no extension. *)
Lemma allowed_file_needs_dot (filename : string) :
  after_last_dot filename = None -> allowed_file filename = false.
Proof.
  intros H. unfold allowed_file. rewrite H. reflexivity.
Qed.

Lemma lower_ascii_idempotent (c : ascii) :
  lower_ascii (lower_ascii c) = lower_ascii c.
Proof.
  destruct c as [[] [] [] [] [] [] [] []]; reflexivity.
Qed.

Lemma lower_idempotent (s : string) : lower (lower s) = lower s.
Proof.
  induction s as [| c s IH]; cbn [lower]; [reflexivity |].
  rewrite lower_ascii_idempotent, IH. reflexivity.
Qed.

Lemma lower_ascii_dot (c : ascii) :
  Ascii.eqb (lower_ascii c) dot = Ascii.eqb c dot.
Proof.
  destruct c as [[] [] [] [] [] [] [] []]; reflexivity.
Qed.

(** Lower-casing a name lower-cases what follows its last dot. *)
Lemma after_last_dot_lower (s : string) :
  after_last_dot (lower s) = option_map lower (after_last_dot s).
Proof.
  induction s as [| c s IH]; cbn [lower after_last_dot]; [reflexivity |].
  rewrite IH. destruct (after_last_dot s) as [ext |]; cbn [option_map];
    [reflexivity |].
  rewrite lower_ascii_dot. destruct (Ascii.eqb c dot); reflexivity.
Qed.

(** X2: the test does not look at the case of the name. *)
Theorem allowed_file_case_insensitive (filename : string) :
  allowed_file (lower filename) = allowed_file filename.
Proof.
  unfold allowed_file. rewrite after_last_dot_lower.
  destruct (after_last_dot filename) as [ext |]; cbn [option_map];
    [| reflexivity].
  rewrite lower_idempotent. reflexivity.
Qed.

(** ** Pages of GET /api/data *)

Lemma in_range_binds (n : Z) :
  min_int64 <= n <= max_rowid -> bind_parameter (PInt n) = inr (SInt n).
Proof.
  intros [Hlo Hhi]. cbn [bind_parameter].
  apply Z.leb_le in Hlo, Hhi. rewrite Hlo, Hhi. reflexivity.
Qed.

Lemma firstn_add {A} (a b : nat) (l : list A) :
  firstn (a + b) l = firstn a l ++ firstn b (skipn a l).
Proof.
  revert l. induction a as [| a IH]; intros l; [reflexivity |].
  destruct l as [| x l]; cbn [Nat.add firstn skipn app].
  - rewrite firstn_nil. reflexivity.
  - rewrite IH. reflexivity.
Qed.

Lemma skipn_add {A} (a b : nat) (l : list A) :
  skipn (a + b) l = skipn b (skipn a l).
Proof.
  revert l. induction a as [| a IH]; intros l; [reflexivity |].
  destruct l as [| x l]; cbn [Nat.add skipn].
  - rewrite skipn_nil. reflexivity.
  - apply IH.
Qed.

(** X3: two pages that follow each other make the page of their joint
    size: listing [limit1] records from [offset] and then [limit2] from
    [offset + limit1] gives what listing [limit1 + limit2] from [offset]
    gives. *)
Theorem get_data_pages_compose (limit1 limit2 offset : Z) (db : database) :
  0 <= limit1 -> 0 <= limit2 -> 0 <= offset ->
  limit1 + limit2 <= max_rowid -> offset + limit1 <= max_rowid ->
  exists page1 page2,
    get_data (Some limit1) (Some offset) db = inr page1 /\
    get_data (Some limit2) (Some (offset + limit1)) db = inr page2 /\
    get_data (Some (limit1 + limit2)) (Some offset) db = inr (page1 ++ page2).
Proof.
  intros H1 H2 Ho Hl Hol.
  rewrite !get_data_page by lia.
  eexists. eexists. split; [reflexivity | split; [reflexivity |]].
  rewrite !Z2Nat.inj_add by lia.
  rewrite firstn_add, skipn_add. reflexivity.
Qed.

(** X4: a listing with a limit that is not negative never has more
    records than the limit, and an offset at or past the end of the table
    gives the empty list, not an error. *)
Theorem get_data_limit_bound (limit offset : Z) (db : database) :
  0 <= limit <= max_rowid -> 0 <= offset <= max_rowid ->
  exists page,
    get_data (Some limit) (Some offset) db = inr page /\
    (List.length page <= Z.to_nat limit)%nat /\
    (Z.of_nat (get_data_count db) <= offset -> page = []).
Proof.
  intros Hl Ho. rewrite get_data_page by assumption.
  eexists. split; [reflexivity | split].
  - rewrite length_firstn. lia.
  - intros Hpast. unfold get_data_count in Hpast.
    rewrite skipn_all2 by lia. apply firstn_nil.
Qed.

(** X5: a negative limit is no limit: the listing is the whole table
    from the offset on. *)
Theorem get_data_negative_limit (limit offset : Z) (db : database) :
  min_int64 <= limit < 0 -> 0 <= offset <= max_rowid ->
  get_data (Some limit) (Some offset) db =
  inr (skipn (Z.to_nat offset) (data db)).
Proof.
  intros Hl Ho. unfold get_data.
  assert (Hmax : 0 < max_rowid) by reflexivity.
  assert (Hmin : min_int64 < 0) by reflexivity.
  rewrite !in_range_binds by lia. cbn [bind ret sql_select].
  destruct (limit <? 0) eqn:E; [reflexivity |].
  apply Z.ltb_ge in E. lia.
Qed.

(** X6: a limit, or with a limit an offset, that does not fit 64 bits
    makes the handler raise [OverflowError] instead of answering; without
    a limit the offset is never bound, so any offset is accepted. *)
Theorem get_data_overflow (limit offset : Z) (db : database) :
  (max_rowid < limit \/ limit < min_int64 ->
   get_data (Some limit) (Some offset) db = inl OverflowError) /\
  (min_int64 <= limit <= max_rowid ->
   max_rowid < offset \/ offset < min_int64 ->
   get_data (Some limit) (Some offset) db = inl OverflowError) /\
  get_data None (Some offset) db = inr (data db).
Proof.
  assert (Hout : forall n, max_rowid < n \/ n < min_int64 ->
                           bind_parameter (PInt n) = inl OverflowError).
  { intros n H. cbn [bind_parameter].
    assert (E : (min_int64 <=? n) && (n <=? max_rowid) = false).
    { apply andb_false_iff. destruct H as [H | H];
        [right; apply Z.leb_gt | left; apply Z.leb_gt]; exact H. }
    rewrite E. reflexivity. }
  unfold get_data. repeat split.
  - intros H. rewrite (Hout limit H). reflexivity.
  - intros Hl H. rewrite (in_range_binds limit Hl), (Hout offset H).
    reflexivity.
Qed.

(** ** What every batch keeps *)

Section Frame.
Context {PT : PythonText} {SE : SqliteEngine}.

(** While a batch starting from [db] runs: what is committed is [db],
    the sequence has not gone down, and each pending row is a row of
    [db] or is keyed above the sequence of [db]. *)
Definition running (db : database) (conn : connection) : Prop :=
  committed conn = db /\
  sqlite_sequence db <= sqlite_sequence (pending conn) /\
  Forall (fun r => In r (data db) \/ sqlite_sequence db < id r)
    (data (pending conn)).

(** While an appending batch runs, the rows of [db] still head the
    table. *)
Definition appending (db : database) (conn : connection) : Prop :=
  committed conn = db /\
  exists added, data (pending conn) = data db ++ added.

Lemma opened_running (append : bool) (db : database) :
  running db (opened append db).
Proof.
  unfold opened, running. destruct append; cbn [negb].
  - cbn [connect committed pending]. repeat split; [lia |].
    apply Forall_forall. intros r Hr. left. exact Hr.
  - cbn [connect execute_delete sql_delete committed pending data
           sqlite_sequence].
    repeat split; [lia | constructor].
Qed.

Lemma try_insert_running (db : database) (item : pyval) (conn : connection) :
  running db conn ->
  match try_insert item conn with
  | Done conn' => running db conn'
  | Raised _ conn' => running db conn'
  end.
Proof.
  intros (Hc & Hseq & Hrows). rewrite try_insert_unfold.
  destruct (bound_cells item) as [e | v]; [repeat split; assumption |].
  unfold sql_insert.
  destruct (sqlite_sequence (pending conn) <? max_rowid); cbn [ret raise].
  - unfold running. cbn [committed pending data sqlite_sequence].
    repeat split; [exact Hc | lia |].
    apply Forall_app. split; [exact Hrows |].
    constructor; [right; cbn [id]; lia | constructor].
  - unfold running, rollback. cbn [committed pending]. rewrite Hc.
    repeat split; [lia |].
    apply Forall_forall. intros r Hr. left. exact Hr.
Qed.

Lemma insert_loop_running (db : database) (items : list pyval) :
  forall (conn : connection) (count : nat),
    running db conn -> running db (fst (insert_loop items conn count)).
Proof.
  induction items as [| item rest IH]; intros conn count Hrun.
  - exact Hrun.
  - cbn [insert_loop].
    pose proof (try_insert_running db item conn Hrun) as Hstep.
    destruct (try_insert item conn) as [conn' | e conn']; apply IH, Hstep.
Qed.

Lemma insert_data_running
  (items : list pyval) (append : bool) (db : database) :
  sqlite_sequence db <= sqlite_sequence (snd (insert_data items append db)) /\
  Forall (fun r => In r (data db) \/ sqlite_sequence db < id r)
    (data (snd (insert_data items append db))).
Proof.
  rewrite insert_data_unfold. cbn [snd].
  destruct (insert_loop_running db items (opened append db) 0
              (opened_running append db)) as (_ & Hseq & Hrows).
  split; assumption.
Qed.

(** X7: [insert_data] never gives out a key again.  After any batch, in
    either mode, every row of the table is a row that was there before or
    is keyed above the sequence the batch started from, and the sequence
    has not gone down. *)
Theorem insert_data_keys_fresh
  (items : list pyval) (append : bool) (db : database) :
  sqlite_sequence db <= sqlite_sequence (snd (insert_data items append db)) /\
  Forall (fun r => In r (data db) \/ sqlite_sequence db < id r)
    (data (snd (insert_data items append db))).
Proof. apply insert_data_running. Qed.

Lemma try_insert_appending (db : database) (item : pyval) (conn : connection) :
  appending db conn ->
  match try_insert item conn with
  | Done conn' => appending db conn'
  | Raised _ conn' => appending db conn'
  end.
Proof.
  intros (Hc & added & Hrows). rewrite try_insert_unfold.
  destruct (bound_cells item) as [e | v];
    [split; [exact Hc | exists added; exact Hrows] |].
  unfold sql_insert.
  destruct (sqlite_sequence (pending conn) <? max_rowid); cbn [ret raise].
  - split; [exact Hc |]. cbn [pending data]. rewrite Hrows.
    eexists. rewrite <- app_assoc. reflexivity.
  - split; [exact Hc |]. unfold rollback. cbn [pending]. rewrite Hc.
    exists []. symmetry. apply app_nil_r.
Qed.

Lemma insert_loop_appending (db : database) (items : list pyval) :
  forall (conn : connection) (count : nat),
    appending db conn -> appending db (fst (insert_loop items conn count)).
Proof.
  induction items as [| item rest IH]; intros conn count Hrun.
  - exact Hrun.
  - cbn [insert_loop].
    pose proof (try_insert_appending db item conn Hrun) as Hstep.
    destruct (try_insert item conn) as [conn' | e conn']; apply IH, Hstep.
Qed.

(** X8: an appending batch, whatever it holds, leaves every row of the
    table in place and unchanged: the table after is the table before
    followed by the rows added. *)
Theorem append_keeps_rows (items : list pyval) (db : database) :
  exists added,
    data (snd (insert_data items true db)) = data db ++ added.
Proof.
  rewrite insert_data_unfold. cbn [snd].
  assert (Hstart : appending db (opened true db)).
  { split; [reflexivity |]. exists []. symmetry. apply app_nil_r. }
  destruct (insert_loop_appending db items _ 0 Hstart) as (_ & added & H).
  exists added. exact H.
Qed.

(** Only a record whose parameters are built and bound is counted. *)
Lemma insert_loop_count_accepted (items : list pyval) :
  forall (conn : connection) (n : nat),
    (snd (insert_loop items conn n) <= n + List.length (accepted items))%nat.
Proof.
  induction items as [| item rest IH]; intros conn n;
    cbn [insert_loop accepted List.length].
  - cbn [snd]. lia.
  - rewrite try_insert_unfold.
    destruct (bound_cells item) as [e | v]; [apply IH |].
    destruct (sql_insert v (pending conn)) as [e | db'];
      cbn [List.length].
    + specialize (IH (rollback conn) n). lia.
    + match goal with
      | |- (snd (insert_loop rest ?c (S n)) <= _)%nat =>
          specialize (IH c (S n))
      end. lia.
Qed.

(** X9: whatever the table holds and however many rowids are left, the
    count answered is at most the number of records of the batch that are
    objects with storable fields, and so at most the number of records of
    the batch: a record that cannot be stored is never counted. *)
Theorem insert_data_count_bound
  (items : list pyval) (append : bool) (db : database) :
  exists count,
    fst (insert_data items append db) =
    Processed count (processed_message count) /\
    (count <= List.length (filter insertable items))%nat /\
    (List.length (filter insertable items) <= List.length items)%nat.
Proof.
  rewrite insert_data_unfold. cbn [fst].
  eexists. split; [reflexivity | split].
  - rewrite <- accepted_insertable.
    apply (insert_loop_count_accepted items (opened append db) 0).
  - apply filter_length_le.
Qed.
End Frame.

(** ** DELETE /api/delete *)

Section Delete.
Context {PT : PythonText} {SE : SqliteEngine}.

(** X10: DELETE /api/delete empties the table and answers remaining 0,
    from any table; it keeps the sequence, so that a batch inserted
    afterwards is keyed above every key the table ever held. *)
Theorem delete_data_then_insert (items : list pyval) (append : bool)
  (db : database) :
  db_ok db ->
  fst (delete_data db) = ("All data deleted successfully"%string, 0%nat) /\
  get_data_count (snd (delete_data db)) = 0%nat /\
  forall old new,
    In old (data db) ->
    In new (data (snd (insert_data items append (snd (delete_data db))))) ->
    id old < id new.
Proof.
  intros [Hle _]. repeat split.
  intros old new Hold Hnew.
  destruct (insert_data_running items append (snd (delete_data db)))
    as [_ Hfresh].
  rewrite Forall_forall in Hfresh, Hle.
  specialize (Hle old Hold).
  destruct (Hfresh new Hnew) as [[] | Hgt].
  cbn [delete_data snd close commit execute_delete sql_delete connect
         committed pending sqlite_sequence] in Hgt.
  lia.
Qed.
End Delete.

(** ** Which records are stored *)

Section Insertable.
Context {PT : PythonText} {SE : SqliteEngine}.

(** X11: while rowids last, the count answered is the number of records
    of the batch that are objects whose twelve plain fields are scalars
    (a string without a lone surrogate, a number in the 64-bit range, a
    boolean or null) and whose end_year, when truthy, has a text without
    a lone surrogate; the table grows by that many rows, from nothing
    when replacing. *)
Theorem insert_data_count_insertable
  (items : list pyval) (append : bool) (db : database) :
  sqlite_sequence db + Z.of_nat (List.length items) <= max_rowid ->
  let count := List.length (filter insertable items) in
  fst (insert_data items append db) =
  Processed count (processed_message count) /\
  get_data_count (snd (insert_data items append db)) =
  ((if append then get_data_count db else 0) + count)%nat.
Proof.
  intros Hroom count. subst count.
  pose proof (accepted_bound items) as Hb.
  rewrite insert_data_spec by lia.
  rewrite <- accepted_insertable. cbn [fst snd].
  split; [reflexivity |].
  unfold get_data_count. cbn [data].
  rewrite length_app, new_rows_length. destruct append; reflexivity.
Qed.

Lemma new_rows_increasing (vs : list (columns sqlval)) (seq : Z) :
  StronglySorted Z.lt (map id (new_rows vs seq)).
Proof.
  revert seq. induction vs as [| v vs IH]; intros seq; cbn [new_rows map].
  - constructor.
  - constructor; [apply IH |].
    apply Forall_forall. intros k Hk.
    apply in_map_iff in Hk as (r & <- & Hr).
    pose proof (new_rows_ids vs (seq + 1)) as Hids.
    rewrite Forall_forall in Hids. specialize (Hids r Hr).
    cbn [id]. lia.
Qed.

(** X12: while rowids last, a replacing batch is listed back in the
    order of the upload: GET /api/data gives the stored records in batch
    order, under keys that increase. *)
Theorem replace_lists_in_batch_order (items : list pyval) (db : database) :
  sqlite_sequence db + Z.of_nat (List.length items) <= max_rowid ->
  exists rows,
    get_data None None (snd (insert_data items false db)) = inr rows /\
    map cells rows = map apply_affinity (accepted items) /\
    StronglySorted Z.lt (map id rows).
Proof.
  intros Hroom. pose proof (accepted_bound items) as Hb.
  rewrite insert_data_spec by lia. cbn [snd].
  eexists. split; [reflexivity |]. cbn [data app].
  split; [apply new_rows_cells | apply new_rows_increasing].
Qed.
End Insertable.

(** ** Documents and options *)

Section Documents.
Context {PT : PythonText} {SE : SqliteEngine} {DC : Decoders}.

Definition is_list (v : pyval) : bool :=
  match v with PList _ => true | _ => false end.

Definition is_dict (v : pyval) : bool :=
  match v with PDict _ => true | _ => false end.

(** X13: a JSON document whose top-level value is neither an array nor an
    object (null, a number, a string, a boolean) is taken as a batch of
    one record that cannot be inserted: the answer is a success with
    count 0, and when replacing the table is emptied all the same. *)
Theorem json_scalar_document
  (contents : string) (v : pyval) (append : bool) (db : database) :
  json_load contents = inr v ->
  is_list v = false -> is_dict v = false ->
  process_json_file contents append db =
  (Processed 0 "Successfully processed 0 records",
   if append then db else sql_delete db).
Proof.
  intros Hload Hl Hd. unfold process_json_file. rewrite Hload.
  assert (Hdata : match v with PList items => items | _ => [v] end = [v])
    by (destruct v; try reflexivity; discriminate).
  rewrite Hdata.
  assert (Hbad : forall conn, try_insert v conn = Raised AttributeError conn)
    by (intros conn; destruct v; try reflexivity; discriminate).
  unfold insert_data. cbn [insert_loop]. rewrite Hbad.
  destruct append, db; reflexivity.
Qed.

(** A top-level object is a batch of that one record. *)
Lemma json_object_document
  (contents : string) (entries : list (string * pyval)) (append : bool)
  (db : database) :
  json_load contents = inr (PDict entries) ->
  process_json_file contents append db =
  insert_data [PDict entries] append db.
Proof.
  intros Hload. unfold process_json_file. rewrite Hload. reflexivity.
Qed.

Lemma respond_snd (r : result * database) : snd (respond r) = snd r.
Proof. unfold respond. destruct (fst r); reflexivity. Qed.

(** X14: the option decides what an upload leaves of the old table.  With
    the word append, in any case of its letters, the table after is the
    old rows followed by the rows of the batch; with any other value of
    the option, and with no option, it is the rows of the batch alone. *)
Theorem upload_option
  (file_ext o contents : string) (items : list pyval) (db : database) :
  decoded_batch file_ext contents = Some items ->
  sqlite_sequence db + Z.of_nat (List.length items) <= max_rowid ->
  (lower o = "append"%string ->
   data (snd (upload_file file_ext (Some o) contents db)) =
   data db ++ new_rows (accepted items) (sqlite_sequence db)) /\
  (lower o <> "append"%string ->
   data (snd (upload_file file_ext (Some o) contents db)) =
   new_rows (accepted items) (sqlite_sequence db)) /\
  data (snd (upload_file file_ext None contents db)) =
  new_rows (accepted items) (sqlite_sequence db).
Proof.
  intros Hload Hroom.
  assert (Hroom' : sqlite_sequence db +
                   Z.of_nat (List.length (accepted items)) <= max_rowid).
  { pose proof (accepted_bound items) as Hb.
    revert Hroom. generalize max_rowid. intros m Hroom. lia. }
  rewrite !(upload_decoded _ _ _ _ _ Hload), !respond_snd.
  rewrite !(insert_data_spec _ _ _ Hroom'). cbn [snd data].
  unfold is_append.
  split; [| split].
  - intros ->. reflexivity.
  - intros Hne. apply String.eqb_neq in Hne. rewrite Hne. reflexivity.
  - reflexivity.
Qed.

(** X15: every handler that writes keeps the table well keyed: after an
    upload of any format and option, after POST /api/init and after
    DELETE /api/delete, keys are unique and none is above the sequence. *)
Theorem handlers_keep_keys
  (file_ext : string) (option : option string) (contents : string)
  (db : database) :
  db_ok db ->
  db_ok (snd (upload_file file_ext option contents db)) /\
  db_ok (snd (init_database db)) /\
  db_ok (snd (delete_data db)).
Proof.
  intros Hok. split; [| split].
  - unfold upload_file.
    destruct (String.eqb file_ext "json");
      [| destruct (String.eqb file_ext "csv");
         [| destruct (String.eqb file_ext "xlsx" || String.eqb file_ext "xls")%bool;
            [| exact Hok]]];
      rewrite respond_snd;
      unfold process_json_file, process_csv_file, process_excel_file.
    + destruct (json_load contents); [exact Hok | apply insert_data_ok, Hok].
    + destruct (read_csv contents); [exact Hok | apply insert_data_ok, Hok].
    + destruct (read_excel contents); [exact Hok | apply insert_data_ok, Hok].
  - apply insert_data_ok, Hok.
  - apply delete_data_ok, Hok.
Qed.
End Documents.

(** ** POST /api/upload, from the request on *)

(** [werkzeug.utils.secure_filename]: the name under which the file is
    saved, a flat name without separators. *)
Class Werkzeug : Type := {
  secure_filename : string -> string
}.

(** The parts of the request the handler reads: [request.files['file']]
    when it is there, as the name and the contents of the file, and
    [request.form['option']] when it is there. *)
Record upload_form : Type := UploadForm {
  file : option (string * string);
  option_field : option string
}.

(** UPLOAD_FOLDER: the names of its files with their contents. *)
Definition folder : Type := list (string * string).

(** [os.remove(file_path)], with the bare [except] around it: a name
    that is not there is no error. *)
Definition os_remove (name : string) (fs : folder) : folder :=
  filter (fun e => negb (String.eqb (fst e) name)) fs.

(** [file.save(file_path)]: a file of that name is overwritten. *)
Definition file_save (name contents : string) (fs : folder) : folder :=
  (name, contents) :: os_remove name fs.

(** The exceptions that leave the handler uncaught: both are raised
    before its [try]. *)
Inductive escaped : Type :=
| IsADirectoryError   (* file.save on the folder itself: an empty name *)
| IndexError.         (* rsplit('.', 1)[1] on a name without a dot *)

Inductive reply : Type :=
| Answered (status : nat) (body : result)
| Escaped (e : escaped).

Section Upload.
Context {PT : PythonText} {SE : SqliteEngine} {DC : Decoders} {WZ : Werkzeug}.

(** [upload_file], lines 138-182, with the folder. *)
Definition api_upload (form : upload_form) (fs : folder) (db : database)
  : reply * folder * database :=
  match file form with
  | None => (Answered 400 (Error "No file part"), fs, db)
  | Some (filename, contents) =>
      if String.eqb filename EmptyString then
        (Answered 400 (Error "No selected file"), fs, db)
      else if allowed_file filename then
        let name := secure_filename filename in
        if String.eqb name EmptyString then (Escaped IsADirectoryError, fs, db)
        else
          let saved := file_save name contents fs in
          match after_last_dot name with
          | None => (Escaped IndexError, saved, db)
          | Some ext =>
              let answer :=
                upload_file (lower ext) (option_field form) contents db in
              (Answered (fst (fst answer)) (snd (fst answer)),
               os_remove name saved, snd answer)
          end
      else (Answered 400 (Error "File type not allowed"), fs, db)
  end.

Lemma os_remove_gone (name : string) (fs : folder) :
  ~ In name (map fst (os_remove name fs)).
Proof.
  unfold os_remove. intros Hin.
  apply in_map_iff in Hin as (e & He & Hin).
  apply filter_In in Hin as [_ Hne].
  apply negb_true_iff, String.eqb_neq in Hne. contradiction.
Qed.

Lemma os_remove_others (name : string) (fs : folder) (e : string * string) :
  fst e <> name -> (In e (os_remove name fs) <-> In e fs).
Proof.
  intros Hne. unfold os_remove. rewrite filter_In.
  apply String.eqb_neq in Hne. rewrite Hne. tauto.
Qed.

Lemma os_remove_twice (name : string) (fs : folder) :
  os_remove name (os_remove name fs) = os_remove name fs.
Proof.
  unfold os_remove. induction fs as [| e fs IH]; cbn [filter]; [reflexivity |].
  destruct (negb (String.eqb (fst e) name)) eqn:E; cbn [filter].
  - rewrite E, IH. reflexivity.
  - exact IH.
Qed.

(** X16: a request without a file part, with an empty file name, or with
    a name that is not allowed is answered with 400; nothing is saved and
    the table is not touched. *)
Theorem upload_rejected (form : upload_form) (fs : folder) (db : database) :
  file form = None \/
  (exists contents, file form = Some (EmptyString, contents)) \/
  (exists filename contents,
      file form = Some (filename, contents) /\ allowed_file filename = false) ->
  exists message,
    api_upload form fs db = (Answered 400 (Error message), fs, db).
Proof.
  unfold api_upload.
  intros [-> | [[contents ->] | (filename & contents & -> & Hno)]].
  - eexists; reflexivity.
  - eexists; reflexivity.
  - rewrite Hno. destruct (String.eqb filename EmptyString); eexists; reflexivity.
Qed.

(** X17: an allowed upload whose saved name has an extension is answered
    as the processing of the file is; afterwards no file of the saved
    name is in the folder, whether the processing succeeded or not (a
    file that had that name before is gone too), and every other file is
    where it was. *)
Theorem upload_cleans_up
  (filename contents ext : string) (option : option string)
  (fs : folder) (db : database) :
  filename <> EmptyString ->
  allowed_file filename = true ->
  after_last_dot (secure_filename filename) = Some ext ->
  let form := {| file := Some (filename, contents); option_field := option |} in
  let answer := upload_file (lower ext) option contents db in
  api_upload form fs db =
  (Answered (fst (fst answer)) (snd (fst answer)),
   os_remove (secure_filename filename) fs, snd answer) /\
  ~ In (secure_filename filename)
      (map fst (snd (fst (api_upload form fs db)))) /\
  forall e, fst e <> secure_filename filename ->
            (In e (snd (fst (api_upload form fs db))) <-> In e fs).
Proof.
  intros Hname Hallowed Hext form answer. subst form answer.
  assert (E : api_upload
                {| file := Some (filename, contents); option_field := option |}
                fs db =
              (Answered
                 (fst (fst (upload_file (lower ext) option contents db)))
                 (snd (fst (upload_file (lower ext) option contents db))),
               os_remove (secure_filename filename) fs,
               snd (upload_file (lower ext) option contents db))).
  { unfold api_upload. cbn [file option_field].
    apply String.eqb_neq in Hname. rewrite Hname, Hallowed, Hext.
    destruct (String.eqb (secure_filename filename) EmptyString) eqn:Hempty.
    - apply String.eqb_eq in Hempty. rewrite Hempty in Hext. discriminate.
    - unfold file_save. cbn [os_remove filter fst].
      rewrite String.eqb_refl. cbn [negb].
      fold (os_remove (secure_filename filename)
              (os_remove (secure_filename filename) fs)).
      rewrite os_remove_twice. reflexivity. }
  rewrite E. cbn [fst snd]. split; [reflexivity | split].
  - apply os_remove_gone.
  - intros e He. apply os_remove_others, He.
Qed.

(** X18: an allowed upload whose saved name has lost its dot is saved
    and then fails on the extension, before the [try]: [IndexError]
    leaves the handler, the saved file stays in the folder, and the table
    is not touched. *)
Theorem upload_leaves_file
  (filename contents : string) (option : option string)
  (fs : folder) (db : database) :
  filename <> EmptyString ->
  allowed_file filename = true ->
  secure_filename filename <> EmptyString ->
  after_last_dot (secure_filename filename) = None ->
  api_upload {| file := Some (filename, contents); option_field := option |}
    fs db =
  (Escaped IndexError, file_save (secure_filename filename) contents fs, db) /\
  In (secure_filename filename, contents)
    (file_save (secure_filename filename) contents fs).
Proof.
  intros Hname Hallowed Hsaved Hext. unfold api_upload. cbn [file option_field].
  apply String.eqb_neq in Hname, Hsaved.
  rewrite Hname, Hallowed, Hsaved, Hext.
  split; [reflexivity | left; reflexivity].
Qed.
End Upload.

(** A stand-in for [secure_filename] on names of letters, digits and
    dots: it drops the dots a name starts with, as the function does. *)
Fixpoint drop_leading_dots (s : string) : string :=
  match s with
  | EmptyString => EmptyString
  | String c rest => if Ascii.eqb c dot then drop_leading_dots rest else s
  end.

Definition example_werkzeug : Werkzeug :=
  {| secure_filename := drop_leading_dots |}.

Definition example_folder : folder :=
  [ ("data.json"%string, "{}"%string); ("old.csv"%string, "a,b"%string) ].

Lemma upload_rejected_witness :
  exists message,
    @api_upload example_text example_engine example_decoders example_werkzeug
      {| file := Some ("notes.txt"%string, "hello"%string);
         option_field := None |}
      example_folder one_row_database =
    (Answered 400 (Error message), example_folder, one_row_database).
Proof.
  apply (@upload_rejected example_text example_engine example_decoders
           example_werkzeug).
  right. right. exists "notes.txt"%string, "hello"%string.
  split; reflexivity.
Defined.

Lemma upload_cleans_up_witness :
  ~ In "data.json"%string
      (map fst
         (snd (fst (@api_upload example_text example_engine example_decoders
                      example_werkzeug
                      {| file := Some ("data.json"%string, json_example);
                         option_field := Some "append"%string |}
                      example_folder one_row_database)))).
Proof.
  exact (proj1 (proj2
    (@upload_cleans_up example_text example_engine example_decoders
       example_werkzeug "data.json" json_example "json"
       (Some "append"%string) example_folder one_row_database
       ltac:(discriminate) eq_refl eq_refl))).
Defined.

Lemma upload_leaves_file_witness :
  In ("json"%string, "[]"%string)
    (file_save "json" "[]" example_folder).
Proof.
  exact (proj2
    (@upload_leaves_file example_text example_engine example_decoders
       example_werkzeug ".json" "[]" None example_folder one_row_database
       ltac:(discriminate) eq_refl ltac:(discriminate) eq_refl)).
Defined.

(** ** The properties above on concrete inputs *)

(** The table of the two sample records. *)
Definition sample_database : database :=
  snd (@init_database example_text example_engine empty_database).

(** A JSON reader that knows the documents [null] and [42]. *)
Definition scalar_decoders : Decoders :=
  {| json_load := fun contents =>
       if String.eqb contents "null" then inr PNone
       else if String.eqb contents "42" then inr (PInt 42)
       else inl "Expecting value: line 1 column 1 (char 0)"%string;
     read_csv := fun _ => inl "No columns to parse from file"%string;
     read_excel := fun _ => inl "File is not a zip file"%string |}.

Lemma get_data_pages_compose_witness :
  exists page1 page2,
    get_data (Some 1) (Some 0) sample_database = inr page1 /\
    get_data (Some 1) (Some (0 + 1)) sample_database = inr page2 /\
    get_data (Some (1 + 1)) (Some 0) sample_database = inr (page1 ++ page2).
Proof.
  apply (get_data_pages_compose 1 1 0 sample_database);
    vm_compute; discriminate.
Defined.

Lemma get_data_limit_bound_witness :
  exists page,
    get_data (Some 1) (Some 5) sample_database = inr page /\
    (List.length page <= Z.to_nat 1)%nat /\
    (Z.of_nat (get_data_count sample_database) <= 5 -> page = []).
Proof.
  apply (get_data_limit_bound 1 5 sample_database);
    split; vm_compute; discriminate.
Defined.

Lemma get_data_negative_limit_witness :
  get_data (Some (-1)) (Some 1) sample_database =
  inr (skipn (Z.to_nat 1) (data sample_database)).
Proof.
  apply (get_data_negative_limit (-1) 1 sample_database).
  - split; [vm_compute; discriminate | reflexivity].
  - split; vm_compute; discriminate.
Defined.

Lemma delete_data_then_insert_witness :
  fst (delete_data one_row_database) =
  ("All data deleted successfully"%string, 0%nat) /\
  get_data_count (snd (delete_data one_row_database)) = 0%nat /\
  forall old new,
    In old (data one_row_database) ->
    In new
      (data (snd (@insert_data example_text example_engine [titled "new"]
                    true (snd (delete_data one_row_database))))) ->
    id old < id new.
Proof.
  apply (@delete_data_then_insert example_text example_engine
           [titled "new"] true one_row_database).
  exact one_row_database_ok.
Defined.

Lemma insert_data_count_insertable_witness :
  let items :=
    [ titled "a"; PInt 3;
      PDict [("title"%string, PList [PStr "b"])];
      PDict [("end_year"%string, PList [PInt 2025])];
      titled lone_surrogate;
      PDict [("end_year"%string, PStr lone_surrogate)] ] in
  fst (@insert_data example_text example_engine items true one_row_database) =
  Processed 2 (processed_message 2) /\
  get_data_count
    (snd (@insert_data example_text example_engine items true
            one_row_database)) =
  (get_data_count one_row_database + 2)%nat.
Proof.
  apply (@insert_data_count_insertable example_text example_engine
           [ titled "a"; PInt 3;
             PDict [("title"%string, PList [PStr "b"])];
             PDict [("end_year"%string, PList [PInt 2025])];
             titled lone_surrogate;
             PDict [("end_year"%string, PStr lone_surrogate)] ]
           true one_row_database).
  vm_compute. discriminate.
Defined.

Lemma replace_lists_in_batch_order_witness :
  exists rows,
    get_data None None
      (snd (@insert_data example_text example_engine
              [titled "a"; PInt 3; titled lone_surrogate; titled "b"] false
              one_row_database)) =
    inr rows /\
    map cells rows =
    map (@apply_affinity example_engine)
      (@accepted example_text [titled "a"; titled "b"]) /\
    StronglySorted Z.lt (map id rows).
Proof.
  apply (@replace_lists_in_batch_order example_text example_engine
           [titled "a"; PInt 3; titled lone_surrogate; titled "b"]
           one_row_database).
  vm_compute. discriminate.
Defined.

Lemma upload_option_witness :
  data (snd (@upload_file example_text example_engine example_decoders
               "json" (Some "Append"%string) json_example
               one_row_database)) =
  data one_row_database ++
  @new_rows example_engine (@accepted example_text [titled "new"])
    (sqlite_sequence one_row_database) /\
  data (snd (@upload_file example_text example_engine example_decoders
               "json" (Some "add"%string) json_example one_row_database)) =
  @new_rows example_engine (@accepted example_text [titled "new"])
    (sqlite_sequence one_row_database) /\
  data (snd (@upload_file example_text example_engine example_decoders
               "json" None json_example one_row_database)) =
  @new_rows example_engine (@accepted example_text [titled "new"])
    (sqlite_sequence one_row_database).
Proof.
  assert (Hroom : sqlite_sequence one_row_database +
                  Z.of_nat (List.length [titled "new"]) <= max_rowid)
    by (vm_compute; discriminate).
  split; [| split].
  - apply (proj1 (@upload_option example_text example_engine
                    example_decoders "json" "Append" json_example
                    [titled "new"] one_row_database eq_refl Hroom)).
    reflexivity.
  - apply (proj1 (proj2 (@upload_option example_text example_engine
                           example_decoders "json" "add" json_example
                           [titled "new"] one_row_database eq_refl Hroom))).
    discriminate.
  - apply (proj2 (proj2 (@upload_option example_text example_engine
                           example_decoders "json" "add" json_example
                           [titled "new"] one_row_database eq_refl Hroom))).
Defined.

Lemma json_scalar_document_witness :
  @process_json_file example_text example_engine scalar_decoders "42" false
    one_row_database =
  (Processed 0 "Successfully processed 0 records",
   sql_delete one_row_database).
Proof.
  apply (@json_scalar_document example_text example_engine scalar_decoders
           "42" (PInt 42) false one_row_database); reflexivity.
Defined.

Lemma handlers_keep_keys_witness :
  db_ok (snd (@upload_file example_text example_engine example_decoders
                "json" (Some "append"%string) json_example one_row_database))
  /\
  db_ok (snd (@init_database example_text example_engine one_row_database)) /\
  db_ok (snd (delete_data one_row_database)).
Proof.
  apply (@handlers_keep_keys example_text example_engine example_decoders
           "json" (Some "append"%string) json_example one_row_database).
  exact one_row_database_ok.
Defined.
